(** * Forensic-watermark CDN embedder (Cloudflare Worker): request handler

    A shallow embedding of [src/index.js] and [src/config.js].

    - JavaScript strings are [string]; the handler only splits on ['/'],
      tests literal ASCII prefixes and suffixes, drops the first
      character and concatenates.
    - JavaScript numbers that the handler formats (status codes, the
      cache TTL, byte offsets, lengths and sizes) are integers, modelled
      as [Z] and printed in decimal.
    - [Headers] is a finite map from lower-cased names to values; a
      present header may have the empty value.
    - An [async] function is a computation over the edge cache that
      returns normally or throws, and that records every call it makes to
      a collaborator (token decoders, cache, bucket) in an event list.
      [console.log] is not recorded.
    - The imported modules [akamaiWmt], [doveRunnerAes] and [wmUtil] and
      the R2 bucket binding are collaborators of the handler: they are
      parameters of the development, and may return or throw anything
      of their type.
    - [caches.default] is a finite map from cache-key strings to
      responses. [cache.put] inserts and [cache.match] looks up; eviction,
      expiry and the platform's own refusals are outside the handler and
      are not modelled. [new URL(request.url)] and [new Request(cacheKey)]
      are taken to succeed, as they do for the URL of an incoming request
      and for an origin followed by an absolute path.
    - [new Response] is total: the handler only builds responses with
      the literal statuses 200, 206, 304, 400, 404, 405 or with the status
      of a response that already exists. *)

From Stdlib Require Import ZArith String Ascii List DecimalString Lia.
From stdpp Require Import gmap strings list fin_maps.

Local Open Scope string_scope.
Local Open Scope Z_scope.

(** ** JavaScript string primitives used by the handler *)

Module JsString.

(** [s.startsWith(p)] *)
Definition startsWith (s p : string) : bool := String.prefix p s.

(** [s.endsWith(suffix)]: the last [|suffix|] characters of [s] are
    [suffix]. *)
Definition endsWith (s suffix : string) : bool :=
  let n := String.length s in
  let m := String.length suffix in
  if (m <=? n)%nat
  then String.eqb (String.substring (n - m) m s) suffix
  else false.

(** [s.slice(1)] *)
Definition slice1 (s : string) : string :=
  match s with
  | EmptyString => EmptyString
  | String _ rest => rest
  end.

(** [s.split(sep)] for a one-character separator. *)
Fixpoint split (sep : ascii) (s : string) : list string :=
  match s with
  | EmptyString => [EmptyString]
  | String c rest =>
      if Ascii.eqb c sep then EmptyString :: split sep rest
      else match split sep rest with
           | [] => [String c EmptyString]
           | hd :: tl => String c hd :: tl
           end
  end.

(** [arr.join(sep)] on an array of strings. *)
Definition join (sep : string) (arr : list string) : string :=
  String.concat sep arr.

(** ASCII lower-casing, as the [Headers] class applies to names. *)
Definition lower_ascii (c : ascii) : ascii :=
  let n := nat_of_ascii c in
  if ((65 <=? n) && (n <=? 90))%nat then ascii_of_nat (n + 32) else c.

Fixpoint toLowerCase (s : string) : string :=
  match s with
  | EmptyString => EmptyString
  | String c rest => String (lower_ascii c) (toLowerCase rest)
  end.

(** Template-literal formatting of an integer: [`${n}`]. *)
Definition of_number (n : Z) : string :=
  NilZero.string_of_int (Z.to_int n).

(** Truthiness of a string value: only [""] is falsy. *)
Definition truthy (s : string) : bool := negb (String.eqb s "").

End JsString.

(** ** The [Headers] class *)

Module Headers.

Definition empty : gmap string string := ∅.

Definition get (h : gmap string string) (name : string) : option string :=
  h !! JsString.toLowerCase name.

Definition has (h : gmap string string) (name : string) : bool :=
  match get h name with Some _ => true | None => false end.

Definition set (h : gmap string string) (name value : string)
  : gmap string string :=
  <[JsString.toLowerCase name := value]> h.

End Headers.

(** ** Requests and responses *)

(** [new URL(request.url)]: the two fields the handler reads, and the
    query string, which it never reads. *)
Record URL := mkURL {
  origin : string;
  pathname : string;
  search : string
}.

Record Request := mkRequest {
  method : string;
  url : URL;
  req_headers : gmap string string
}.

(** The first argument of [new Response(body, init)]: a string, or the
    stream of another response or of a bucket object. *)
Inductive BodyInit :=
| BodyString (text : string)
| BodyStream (content : string).

Definition body_content (b : BodyInit) : string :=
  match b with BodyString s => s | BodyStream s => s end.

Record ResponseInit := mkInit {
  init_status : Z;
  init_headers : gmap string string
}.

Record Response := mkResponse {
  status : Z;
  headers : gmap string string;
  body : option string
}.

(** [new Response(body, init)]. A string body gets the default
    [Content-Type] when [init] gives none. *)
Definition new_Response (b : option BodyInit) (init : ResponseInit) : Response :=
  {| status := init_status init;
     headers :=
       match b with
       | Some (BodyString _) =>
           if Headers.has (init_headers init) "content-type"
           then init_headers init
           else Headers.set (init_headers init) "content-type"
                            "text/plain;charset=UTF-8"
       | _ => init_headers init
       end;
     body := body_content <$> b |}.

(** [{ status: n }] *)
Definition init_status_only (n : Z) : ResponseInit :=
  {| init_status := n; init_headers := Headers.empty |}.

(** A [Response] passed as [init]: its status and headers are read. *)
Definition init_of_response (r : Response) : ResponseInit :=
  {| init_status := status r; init_headers := headers r |}.

(** [response.body] as a constructor argument. *)
Definition body_stream (r : Response) : option BodyInit :=
  BodyStream <$> body r.

(** ** Configuration ([src/config.js]) *)

(** [config.prefixFolder] is either an array of folder names or a single
    name; [checkWatermarkPath] tests [Array.isArray]. *)
Inductive PrefixFolder :=
| PrefixArray (folders : list string)
| PrefixString (folder : string).

Record Config := mkConfig {
  aesKey : string;
  type : string;
  availableInterval : Z;
  prefixFolder : PrefixFolder;
  wmtPublicKey : string;
  wmtPassword : string
}.

Record CacheConfig := mkCacheConfig {
  enabled : bool;
  ttl : Z;
  cacheableExtensions : list string
}.

Module ConfigJs.

Definition config : Config :=
  {| aesKey := "{Your DoveRunner Site Key}";
     type := "unlabeled_a_variant";
     availableInterval := 60000;
     prefixFolder := PrefixArray ["dldzkdpsxmdnjrtm"; "wm-contents"];
     wmtPublicKey := "{Your DoveRunner Akamai Public Key}";
     wmtPassword := "{Your DoveRunner Akamai Key Password}" |}.

Definition CACHE_CONFIG : CacheConfig :=
  {| enabled := true;
     ttl := 3600;
     cacheableExtensions := [".m3u8"; ".ts"; ".mp4"; ".m4s"; ".mpd"] |}.

End ConfigJs.

(** ** The R2 bucket binding *)

Record R2Range := mkRange {
  offset : Z;
  range_length : Z
}.

(** What [bucket.get] resolves to when the key exists. [obj_body] is
    [None] for an object returned without a [body] property (a failed
    [onlyIf] precondition). *)
Record R2Object := mkObject {
  obj_body : option string;
  obj_range : option R2Range;
  size : Z;
  httpEtag : string;
  writeHttpMetadata : gmap string string -> gmap string string
}.

Record R2GetOptions := mkOptions {
  onlyIf : gmap string string;
  range : option (gmap string string)
}.

(** ** Computations of the handler *)

Inductive Completion (A : Type) :=
| Normal (value : A)
| Throw (message : string).
Arguments Normal {A} value.
Arguments Throw {A} message.

(** [env.FWM_BUCKER.get(key, options)] resolves to [null] or an object,
    or rejects. *)
Record Env := mkEnv {
  FWM_BUCKER : string -> R2GetOptions -> Completion (option R2Object)
}.

(** Every call to a collaborator, in program order. *)
Inductive Event :=
| AkamaiWmtGetContentUrl (urlPathname : string) (arrUri : list string)
| WmUtilRemoveRevokeToken (arrUri : list string)
| DoveRunnerAesGetContentUrl (requestPath : string) (arrUri : list string)
    (reqPrefixFolder : string) (hasRevokeToken : bool)
| CacheMatch (cacheKey : string)
| CachePut (cacheKey : string) (cacheResponse : Response)
| BucketGet (key : string) (r2Options : R2GetOptions).

Record Run (A : Type) := mkRun {
  outcome : Completion A;
  cache_after : gmap string Response;
  events : list Event
}.
Arguments mkRun {A} outcome cache_after events.
Arguments outcome {A} r.
Arguments cache_after {A} r.
Arguments events {A} r.

(** A computation starts from the content of [caches.default]. *)
Definition Js (A : Type) : Type := gmap string Response -> Run A.

Module Js.

Definition ret {A} (a : A) : Js A :=
  fun cache => mkRun (Normal a) cache [].

Definition throw {A} (message : string) : Js A :=
  fun cache => mkRun (Throw message) cache [].

Definition bind {A B} (m : Js A) (k : A -> Js B) : Js B :=
  fun cache =>
    let r := m cache in
    match outcome r with
    | Normal a =>
        let r' := k a (cache_after r) in
        mkRun (outcome r') (cache_after r') (events r ++ events r')
    | Throw message => mkRun (Throw message) (cache_after r) (events r)
    end.

(** [try { m } catch (e) { return handler(e.message) }] *)
Definition try_catch {A} (m : Js A) (handler : string -> A) : Js A :=
  fun cache =>
    let r := m cache in
    match outcome r with
    | Normal a => r
    | Throw message => mkRun (Normal (handler message)) (cache_after r) (events r)
    end.

(** [await] of a collaborator's call: the call is recorded, then its
    completion is the computation's. *)
Definition call {A} (e : Event) (result : Completion A) : Js A :=
  fun cache => mkRun result cache [e].

(** [await cache.match(new Request(cacheKey, { method: 'GET' }))] *)
Definition cache_match (cacheKey : string) : Js (option Response) :=
  fun cache => mkRun (Normal (cache !! cacheKey)) cache [CacheMatch cacheKey].

(** [ctx.waitUntil(cache.put(new Request(cacheKey, { method: 'GET' }),
    cacheResponse))] *)
Definition cache_put (cacheKey : string) (cacheResponse : Response) : Js unit :=
  fun cache =>
    mkRun (Normal tt) (<[cacheKey := cacheResponse]> cache)
          [CachePut cacheKey cacheResponse].

End Js.

Declare Scope js_scope.
Delimit Scope js_scope with js.
Notation "'await' x ':=' m 'in' k" := (Js.bind m (fun x => k))
  (at level 10, x name, m at level 100, k at level 200) : js_scope.

(** ** The worker ([src/index.js]) *)

Module IndexJs.

Section Worker.

(** The module-level imports of [index.js]. *)
Variable config : Config.
Variable CACHE_CONFIG : CacheConfig.

(** [akamaiWmt.getContentUrl(url.pathname, arrUri, config)]: resolves to
    a path, to [undefined], or rejects. *)
Variable akamaiWmt_getContentUrl :
  string -> list string -> Config -> Completion (option string).

(** [doveRunnerAes.getContentUrl(requestPath, arrUri, prefixFolder,
    config, hasRevokeToken)] *)
Variable doveRunnerAes_getContentUrl :
  string -> list string -> string -> Config -> bool ->
  Completion (option string).

(** [wmUtil.removeRevokeToken(arrUri)] returns
    [{ modifiedArrUri, hasRevokeToken }]. *)
Variable wmUtil_removeRevokeToken :
  list string -> Completion (list string * bool).

Local Open Scope js_scope.

Definition checkWatermarkPath (reqPrefixFolder : string) : bool :=
  match prefixFolder config with
  | PrefixArray folders =>
      existsb (fun folder => String.eqb folder reqPrefixFolder) folders
  | PrefixString folder => String.eqb folder reqPrefixFolder
  end.

Definition getContentType (path : string) : option string :=
  if JsString.endsWith path ".m3u8" then Some "application/vnd.apple.mpegurl"
  else if JsString.endsWith path ".ts" then Some "video/mp2t"
  else if JsString.endsWith path ".mp4" then Some "video/mp4"
  else if JsString.endsWith path ".m4s" then Some "video/iso.segment"
  else if JsString.endsWith path ".mpd" then Some "application/dash+xml"
  else None.

Definition isCacheable (path : string) : bool :=
  existsb (fun ext => JsString.endsWith path ext)
          (cacheableExtensions CACHE_CONFIG).

Definition getCacheKey (request : Request) (finalRequestPath : string)
  : string :=
  let url := url request in
  origin url ++ finalRequestPath.

Definition getFromCache (cacheKey : string) : Js (option Response) :=
  if negb (enabled CACHE_CONFIG) then Js.ret None
  else
    await cachedResponse := Js.cache_match cacheKey in
    match cachedResponse with
    | Some cachedResponse => Js.ret (Some cachedResponse)
    | None => Js.ret None
    end.

Definition storeInCache (cacheKey : string) (response : Response)
  : Js unit :=
  if negb (enabled CACHE_CONFIG) then Js.ret tt
  else
    let responseToCache := response in
    let headers :=
      Headers.set (headers responseToCache) "Cache-Control"
        ("public, max-age=" ++ JsString.of_number (ttl CACHE_CONFIG)) in
    let cacheResponse :=
      new_Response (body_stream responseToCache)
        {| init_status := status responseToCache;
           init_headers := headers |} in
    Js.cache_put cacheKey cacheResponse.

(** A value used as a condition: [null], [undefined] and [""] are
    falsy. *)
Definition truthy_value (v : option string) : bool :=
  match v with
  | Some s => JsString.truthy s
  | None => false
  end.

(** Lines 134-140 of [generateResponse]: the options of the bucket
    read. [range] is added only under [if (rangeHeader)]. *)
Definition r2Options (reqHeaders : gmap string string) : R2GetOptions :=
  let rangeHeader := Headers.get reqHeaders "range" in
  {| onlyIf := reqHeaders;
     range := if truthy_value rangeHeader then Some reqHeaders else None |}.

Definition generateResponse (finalRequestPath : string)
    (reqHeaders : gmap string string) (env : Env) : Js Response :=
  let key := JsString.slice1 finalRequestPath in
  let rangeHeader := Headers.get reqHeaders "range" in
  let r2Options := r2Options reqHeaders in
  await object := Js.call (BucketGet key r2Options)
                          (FWM_BUCKER env key r2Options) in
  match object with
  | None =>
      Js.ret (new_Response (Some (BodyString "Object Not Found"))
                           (init_status_only 404))
  | Some object =>
      let headers := Headers.empty in
      let headers := writeHttpMetadata object headers in
      let headers := Headers.set headers "etag" (httpEtag object) in
      let contentType := getContentType key in
      let headers :=
        match contentType with
        | Some value =>
            if JsString.truthy value
            then Headers.set headers "content-type" value
            else headers
        | None => headers
        end in
      let headers := Headers.set headers "access-control-allow-origin" "*" in
      match obj_body object with
      | None =>
          Js.ret (new_Response None
                    {| init_status := 304; init_headers := headers |})
      | Some objectBody =>
          let status :=
            if truthy_value rangeHeader
            then match obj_range object with Some _ => 206 | None => 200 end
            else 200 in
          let headers :=
            match obj_range object with
            | Some r =>
                Headers.set headers "content-range"
                  ("bytes " ++ JsString.of_number (offset r) ++ "-"
                   ++ JsString.of_number (offset r + range_length r - 1)
                   ++ "/" ++ JsString.of_number (size object))
            | None => headers
            end in
          Js.ret (new_Response (Some (BodyStream objectBody))
                    {| init_status := status; init_headers := headers |})
      end
  end.

(** [response.headers.set(name, value)] on a response. *)
Definition set_header (r : Response) (name value : string) : Response :=
  {| status := status r;
     headers := Headers.set (headers r) name value;
     body := body r |}.

(** Lines 201-221 of [fetch]: classification of the first path segment
    and token decoding. [None] is [finalRequestPath] left [undefined]. *)
Definition resolveFinalRequestPath (request : Request)
  : Js (option string) :=
  let url := url request in
  let arrUri := JsString.split "/" (pathname url) in
  match nth_error arrUri 1 with
  | None =>
      Js.throw "Cannot read properties of undefined (reading 'startsWith')"
  | Some prefixFolder =>
      if JsString.startsWith prefixFolder "wmt:" then
        Js.call (AkamaiWmtGetContentUrl (pathname url) arrUri)
                (akamaiWmt_getContentUrl (pathname url) arrUri config)
      else if checkWatermarkPath prefixFolder then
        await removed := Js.call (WmUtilRemoveRevokeToken arrUri)
                                 (wmUtil_removeRevokeToken arrUri) in
        let modifiedArrUri := fst removed in
        let hasRevokeToken := snd removed in
        let arrUri := modifiedArrUri in
        let requestPath := "/" ++ JsString.join "/" (tl arrUri) in
        Js.call (DoveRunnerAesGetContentUrl requestPath arrUri prefixFolder
                                            hasRevokeToken)
                (doveRunnerAes_getContentUrl requestPath arrUri prefixFolder
                                             config hasRevokeToken)
      else Js.ret None
  end.

(** Lines 229-271 of [fetch]: what happens once [finalRequestPath] is
    truthy. *)
Definition serveResolved (request : Request) (env : Env)
    (finalRequestPath : string) : Js Response :=
  let cacheKey := getCacheKey request finalRequestPath in
  let hasRangeHeader := Headers.has (req_headers request) "range" in
  let shouldCache := isCacheable finalRequestPath && negb hasRangeHeader in
  await cachedResponse :=
    (if shouldCache then getFromCache cacheKey else Js.ret None) in
  match cachedResponse with
  | Some cachedResponse =>
      let response :=
        new_Response (body_stream cachedResponse)
                     (init_of_response cachedResponse) in
      let response := set_header response "X-Cache-Status" "HIT" in
      if String.eqb (method request) "HEAD"
      then Js.ret (new_Response None (init_of_response response))
      else Js.ret response
  | None =>
      await response :=
        generateResponse finalRequestPath (req_headers request) env in
      if shouldCache && (status response =? 200) then
        let responseWithHeader :=
          new_Response (body_stream response) (init_of_response response) in
        let responseWithHeader :=
          set_header responseWithHeader "X-Cache-Status" "MISS" in
        await stored := storeInCache cacheKey response in
        if String.eqb (method request) "HEAD"
        then Js.ret (new_Response None (init_of_response responseWithHeader))
        else Js.ret responseWithHeader
      else
        if String.eqb (method request) "HEAD"
        then Js.ret (new_Response None (init_of_response response))
        else Js.ret response
  end.

Definition fetch (request : Request) (env : Env) : Js Response :=
  if String.eqb (method request) "GET" || String.eqb (method request) "HEAD"
  then
    Js.try_catch
      (await finalRequestPath := resolveFinalRequestPath request in
       (* [if (!finalRequestPath)]: [undefined] and [""] are falsy *)
       match finalRequestPath with
       | Some path =>
           if JsString.truthy path
           then serveResolved request env path
           else Js.ret (new_Response (Some (BodyString "Not Found"))
                                     (init_status_only 404))
       | None =>
           Js.ret (new_Response (Some (BodyString "Not Found"))
                                (init_status_only 404))
       end)
      (fun message =>
         new_Response (Some (BodyString message)) (init_status_only 400))
  else
    Js.ret (new_Response (Some (BodyString "Method Not Allowed"))
              {| init_status := 405;
                 init_headers := Headers.set Headers.empty "Allow" "GET, HEAD" |}).

End Worker.

End IndexJs.

Import IndexJs.

(** The two early responses of [fetch]: line 226 and lines 274-276. *)
Definition not_found : Response :=
  new_Response (Some (BodyString "Not Found")) (init_status_only 404).

Definition bad_request (message : string) : Response :=
  new_Response (Some (BodyString message)) (init_status_only 400).

(** ** Classification of events *)

Definition is_cache_event (e : Event) : bool :=
  match e with
  | CacheMatch _ | CachePut _ _ => true
  | _ => false
  end.

Definition is_bucket_event (e : Event) : bool :=
  match e with
  | BucketGet _ _ => true
  | _ => false
  end.

(** The key of a cache lookup or store. *)
Definition event_cache_key (e : Event) : option string :=
  match e with
  | CacheMatch cacheKey | CachePut cacheKey _ => Some cacheKey
  | _ => None
  end.

(** The status of the response a run produced, if it produced one. *)
Definition response_status (r : Run Response) : option Z :=
  match outcome r with
  | Normal response => Some (status response)
  | Throw _ => None
  end.

(** A header of the response a run produced. *)
Definition response_header (r : Run Response) (name : string) : option string :=
  match outcome r with
  | Normal response => Headers.get (headers response) name
  | Throw _ => None
  end.

(** ** Concrete requests, objects and collaborators

    Stand-ins for the three imported modules and for the bucket, so that
    the handler runs on concrete requests. The decoders do no
    cryptography: the WMT one drops the token segment, the AES one
    returns the request path unless a revoke token was found. *)

Module Samples.

Definition akamaiWmt_getContentUrl (urlPathname : string)
    (arrUri : list string) (config : Config) : Completion (option string) :=
  Normal (Some ("/" ++ JsString.join "/" (drop 2 arrUri))).

Definition doveRunnerAes_getContentUrl (requestPath : string)
    (arrUri : list string) (prefixFolder : string) (config : Config)
    (hasRevokeToken : bool) : Completion (option string) :=
  if hasRevokeToken then Throw "revoked token" else Normal (Some requestPath).

Definition wmUtil_removeRevokeToken (arrUri : list string)
  : Completion (list string * bool) :=
  Normal (arrUri, false).

Definition handle : Request -> Env -> Js Response :=
  fetch ConfigJs.config ConfigJs.CACHE_CONFIG akamaiWmt_getContentUrl
        doveRunnerAes_getContentUrl wmUtil_removeRevokeToken.

Definition resolve : Request -> Js (option string) :=
  resolveFinalRequestPath ConfigJs.config akamaiWmt_getContentUrl
    doveRunnerAes_getContentUrl wmUtil_removeRevokeToken.

(** A playlist whose stored metadata carries its own [Cache-Control]. *)
Definition playlist : R2Object :=
  {| obj_body := Some "#EXTM3U";
     obj_range := None;
     size := 7;
     httpEtag := "etag-1";
     writeHttpMetadata := fun h => Headers.set h "cache-control" "no-store" |}.

(** The same object as the bucket reports it for a satisfied
    [If-None-Match]: no body. *)
Definition playlist_not_modified : R2Object :=
  {| obj_body := None;
     obj_range := Some {| offset := 0; range_length := 7 |};
     size := 7;
     httpEtag := "etag-1";
     writeHttpMetadata := fun h => h |}.

(** A segment read with a byte range. *)
Definition segment_part : R2Object :=
  {| obj_body := Some "0123456789";
     obj_range := Some {| offset := 100; range_length := 10 |};
     size := 5000;
     httpEtag := "etag-2";
     writeHttpMetadata := fun h => h |}.

Definition bucket (key : string) (r2Options : R2GetOptions)
  : Completion (option R2Object) :=
  if String.eqb key "wm-contents/cid/stream.m3u8" then
    match Headers.get (onlyIf r2Options) "if-none-match" with
    | Some _ => Normal (Some playlist_not_modified)
    | None => Normal (Some playlist)
    end
  else if String.eqb key "wm-contents/cid/seg-125.m4s" then
    Normal (Some segment_part)
  else Normal None.

Definition env : Env := {| FWM_BUCKER := bucket |}.

Definition request_of (m path query : string)
    (h : gmap string string) : Request :=
  {| method := m;
     url := {| origin := "https://cdn.example.com";
               pathname := path;
               search := query |};
     req_headers := h |}.

Definition get_playlist : Request :=
  request_of "GET" "/wm-contents/cid/stream.m3u8" "" Headers.empty.

Definition get_playlist_range : Request :=
  request_of "GET" "/wm-contents/cid/stream.m3u8" ""
             (Headers.set Headers.empty "Range" "bytes=0-3").

Definition get_missing : Request :=
  request_of "GET" "/wm-contents/cid/missing.m3u8" "" Headers.empty.

Definition get_unknown_folder : Request :=
  request_of "GET" "/other/cid/stream.m3u8" "" Headers.empty.

Definition post_playlist : Request :=
  request_of "POST" "/wm-contents/cid/stream.m3u8" "" Headers.empty.

Definition get_wmt_a : Request :=
  request_of "GET" "/wmt:tokenA/wm-contents/cid/stream.m3u8" ""
             Headers.empty.

Definition get_wmt_b : Request :=
  request_of "GET" "/wmt:tokenB/wm-contents/cid/stream.m3u8" "?session=2"
             Headers.empty.

Definition empty_range : gmap string string :=
  Headers.set Headers.empty "Range" "".

Definition range_and_if_none_match : gmap string string :=
  Headers.set (Headers.set Headers.empty "Range" "bytes=0-3")
              "If-None-Match" "etag-1".

Definition range_100_109 : gmap string string :=
  Headers.set Headers.empty "Range" "bytes=100-109".

Definition if_none_match : gmap string string :=
  Headers.set Headers.empty "If-None-Match" "etag-1".

Definition playlist_path : string := "/wm-contents/cid/stream.m3u8".

Definition segment_path : string := "/wm-contents/cid/seg-125.m4s".

Definition missing_path : string := "/wm-contents/cid/missing.m3u8".

Definition playlist_key : string :=
  "https://cdn.example.com/wm-contents/cid/stream.m3u8".

(** What [storeInCache] writes for [get_playlist]. *)
Definition stored_playlist : Response :=
  {| status := 200;
     headers :=
       Headers.set
         (Headers.set
            (Headers.set
               (Headers.set
                  (Headers.set Headers.empty "cache-control" "no-store")
                  "etag" "etag-1")
               "content-type" "application/vnd.apple.mpegurl")
            "access-control-allow-origin" "*")
         "Cache-Control" "public, max-age=3600";
     body := Some "#EXTM3U" |}.

Definition empty_cache : gmap string Response := ∅.

(** The cache after a first [get_playlist]. *)
Definition warm_cache : gmap string Response :=
  <[playlist_key := stored_playlist]> empty_cache.

End Samples.

(** ** Requests that differ in the method only, and finer event classes *)


Definition is_cache_match (e : Event) : bool :=
  match e with
  | CacheMatch _ => true
  | _ => false
  end.

Definition is_cache_put (e : Event) : bool :=
  match e with
  | CachePut _ _ => true
  | _ => false
  end.

(** ** Failing and degenerate collaborators *)

Module Faults.

(** A WMT decoder that rejects every token. *)
Definition rejecting_akamaiWmt (urlPathname : string) (arrUri : list string)
    (config : Config) : Completion (option string) :=
  Throw "invalid watermark token".

(** A WMT decoder that resolves every token to the empty path. *)
Definition empty_akamaiWmt (urlPathname : string) (arrUri : list string)
    (config : Config) : Completion (option string) :=
  Normal (Some "").

(** A bucket binding whose reads reject. *)
Definition failing_env : Env :=
  {| FWM_BUCKER := fun _ _ => Throw "bucket unavailable" |}.

(** [CACHE_CONFIG] with the cache switched off. *)
Definition disabled_CACHE_CONFIG : CacheConfig :=
  {| enabled := false;
     ttl := 3600;
     cacheableExtensions := [".m3u8"; ".ts"; ".mp4"; ".m4s"; ".mpd"] |}.

(** A bucket that reports a range although none was asked for. *)
Definition always_ranged_env : Env :=
  {| FWM_BUCKER := fun _ _ => Normal (Some Samples.segment_part) |}.


Definition get_playlist_conditional : Request :=
  Samples.request_of "GET" "/wm-contents/cid/stream.m3u8" ""
                     Samples.if_none_match.

Definition get_poster : Request :=
  Samples.request_of "GET" "/wm-contents/cid/poster.jpg" "" Headers.empty.

End Faults.

(** * Properties *)

(** ** The definitions on concrete inputs *)

Example split_pathname :
  JsString.split "/" "/wm-contents/cid/stream.m3u8"
  = [""; "wm-contents"; "cid"; "stream.m3u8"].
Proof. reflexivity. Qed.

Example split_root : JsString.split "/" "/" = [""; ""].
Proof. reflexivity. Qed.

Example join_segments :
  JsString.join "/" ["wm-contents"; "cid"; "stream.m3u8"]
  = "wm-contents/cid/stream.m3u8".
Proof. reflexivity. Qed.

Example endsWith_samples :
  JsString.endsWith "seg-125.m4s" ".m4s" = true
  /\ JsString.endsWith "seg-125.m4s.bak" ".m4s" = false
  /\ JsString.endsWith "ts" ".ts" = false
  /\ JsString.endsWith "clip.TS" ".ts" = false.
Proof. repeat split; reflexivity. Qed.

Example of_number_samples :
  JsString.of_number 3600 = "3600"
  /\ JsString.of_number 0 = "0"
  /\ JsString.of_number (0 + 0 - 1) = "-1".
Proof. repeat split; reflexivity. Qed.

Example getContentType_table :
  getContentType "a/stream.m3u8" = Some "application/vnd.apple.mpegurl"
  /\ getContentType "a/segment-125.ts" = Some "video/mp2t"
  /\ getContentType "a/clip.mp4" = Some "video/mp4"
  /\ getContentType "a/seg-125.m4s" = Some "video/iso.segment"
  /\ getContentType "a/stream.mpd" = Some "application/dash+xml"
  /\ getContentType "a/poster.jpg" = None.
Proof. repeat split; reflexivity. Qed.

Example checkWatermarkPath_samples :
  checkWatermarkPath ConfigJs.config "wm-contents" = true
  /\ checkWatermarkPath ConfigJs.config "wm-contents2" = false
  /\ checkWatermarkPath ConfigJs.config "" = false.
Proof. repeat split; reflexivity. Qed.

Example first_request_events :
  events (Samples.handle Samples.get_playlist Samples.env Samples.empty_cache)
  = [ WmUtilRemoveRevokeToken [""; "wm-contents"; "cid"; "stream.m3u8"];
      DoveRunnerAesGetContentUrl Samples.playlist_path
        [""; "wm-contents"; "cid"; "stream.m3u8"] "wm-contents" false;
      CacheMatch Samples.playlist_key;
      BucketGet "wm-contents/cid/stream.m3u8"
        {| onlyIf := Headers.empty; range := None |};
      CachePut Samples.playlist_key Samples.stored_playlist ]
  /\ cache_after
       (Samples.handle Samples.get_playlist Samples.env Samples.empty_cache)
     = Samples.warm_cache.
Proof. split; vm_compute; reflexivity. Qed.

Example second_request_events :
  events (Samples.handle Samples.get_playlist Samples.env Samples.warm_cache)
  = [ WmUtilRemoveRevokeToken [""; "wm-contents"; "cid"; "stream.m3u8"];
      DoveRunnerAesGetContentUrl Samples.playlist_path
        [""; "wm-contents"; "cid"; "stream.m3u8"] "wm-contents" false;
      CacheMatch Samples.playlist_key ]
  /\ response_status
       (Samples.handle Samples.get_playlist Samples.env Samples.warm_cache)
     = Some 200.
Proof. split; vm_compute; reflexivity. Qed.

(** ** Facts about the string primitives *)

Module JsStringFacts.
Import JsString.

Lemma append_nil (b : string) : "" ++ b = b.
Proof. reflexivity. Qed.

Lemma append_cons (c : ascii) (a b : string) :
  String c a ++ b = String c (a ++ b).
Proof. reflexivity. Qed.

Lemma startsWith_intro (p rest : string) :
  startsWith (p ++ rest) p = true.
Proof.
  unfold startsWith. induction p as [|c p IH].
  - rewrite append_nil. now destruct rest.
  - rewrite append_cons. simpl.
    destruct (ascii_dec c c); [exact IH | congruence].
Qed.

Lemma startsWith_elim (p s : string) :
  startsWith s p = true -> exists rest, s = p ++ rest.
Proof.
  unfold startsWith. revert s.
  induction p as [|c p IH]; intros s; simpl.
  - intros _. now exists s.
  - destruct s as [|d s]; simpl; [discriminate|].
    destruct (ascii_dec c d) as [Hcd|]; [|discriminate].
    intros H. destruct (IH s H) as [rest Hrest].
    exists rest. now rewrite append_cons, Hcd, Hrest.
Qed.

Lemma substring_whole (s : string) :
  substring 0 (String.length s) s = s.
Proof. induction s as [|c s IH]; simpl; [reflexivity | now rewrite IH]. Qed.

Lemma substring_after (stem suffix : string) :
  substring (String.length stem) (String.length suffix) (stem ++ suffix)
  = suffix.
Proof.
  induction stem as [|c stem IH].
  - rewrite append_nil. apply substring_whole.
  - rewrite append_cons. simpl. exact IH.
Qed.

Lemma length_append (a b : string) :
  String.length (a ++ b) = (String.length a + String.length b)%nat.
Proof.
  induction a as [|c a IH]; [reflexivity|].
  rewrite append_cons. simpl. now rewrite IH.
Qed.

(** Cutting a string at position [k] leaves a stem of [k] characters in
    front of what [substring] returns. *)
Lemma substring_cut (s : string) (k : nat) :
  (k <= String.length s)%nat ->
  exists stem, s = stem ++ substring k (String.length s - k) s.
Proof.
  revert k. induction s as [|c s IH]; intros k Hk; simpl in *.
  - exists EmptyString. now destruct k.
  - destruct k as [|k].
    + exists EmptyString. rewrite append_nil. simpl.
      now rewrite substring_whole.
    + destruct (IH k ltac:(lia)) as [stem Hstem].
      exists (String c stem). rewrite append_cons. simpl.
      now rewrite <- Hstem.
Qed.

Lemma endsWith_intro (stem suffix : string) :
  endsWith (stem ++ suffix) suffix = true.
Proof.
  unfold endsWith. rewrite length_append.
  destruct (Nat.leb_spec (String.length suffix)
              (String.length stem + String.length suffix)) as [_|Hlt];
    [|lia].
  replace (String.length stem + String.length suffix - String.length suffix)%nat
    with (String.length stem) by lia.
  rewrite substring_after. apply String.eqb_refl.
Qed.

Lemma endsWith_elim (s suffix : string) :
  endsWith s suffix = true -> exists stem, s = stem ++ suffix.
Proof.
  unfold endsWith.
  destruct (Nat.leb_spec (String.length suffix) (String.length s))
    as [Hle|]; [|discriminate].
  intros H. apply String.eqb_eq in H.
  destruct (substring_cut s (String.length s - String.length suffix)
              ltac:(lia)) as [stem Hstem].
  exists stem.
  replace (String.length s - (String.length s - String.length suffix))%nat
    with (String.length suffix) in Hstem by lia.
  now rewrite H in Hstem.
Qed.

Lemma truthy_nonempty (s : string) : truthy s = true <-> s <> "".
Proof.
  unfold truthy. destruct (String.eqb_spec s ""); simpl; split;
    congruence.
Qed.

End JsStringFacts.

(** ** Facts about [Headers] *)

Module HeadersFacts.

Lemma get_set_same (h : gmap string string) (name value : string) :
  Headers.get (Headers.set h name value) name = Some value.
Proof. unfold Headers.get, Headers.set. apply lookup_insert_eq. Qed.

Lemma get_set_other (h : gmap string string) (name name' value : string) :
  JsString.toLowerCase name <> JsString.toLowerCase name' ->
  Headers.get (Headers.set h name value) name' = Headers.get h name'.
Proof.
  intros Hne. unfold Headers.get, Headers.set.
  now apply lookup_insert_ne.
Qed.

Lemma has_get (h : gmap string string) (name : string) :
  Headers.has h name = true <-> exists value, Headers.get h name = Some value.
Proof.
  unfold Headers.has. destruct (Headers.get h name); split.
  - intros _. now eexists.
  - reflexivity.
  - discriminate.
  - now intros [? ?].
Qed.

Lemma has_false_get (h : gmap string string) (name : string) :
  Headers.has h name = false <-> Headers.get h name = None.
Proof.
  unfold Headers.has. destruct (Headers.get h name); split; congruence.
Qed.

Lemma get_set_same_name (h : gmap string string) (name name' value : string) :
  JsString.toLowerCase name = JsString.toLowerCase name' ->
  Headers.get (Headers.set h name value) name' = Some value.
Proof.
  intros Heq. unfold Headers.get, Headers.set. rewrite Heq.
  apply lookup_insert_eq.
Qed.

End HeadersFacts.

(** ** Facts about the [Response] constructor *)

Module ResponseFacts.

(** A response rebuilt around another response's stream keeps that
    body and takes the status and headers of [init]. *)
Lemma new_Response_stream (r : Response) (init : ResponseInit) :
  new_Response (body_stream r) init
  = {| status := init_status init;
       headers := init_headers init;
       body := body r |}.
Proof. unfold new_Response, body_stream. now destruct (body r). Qed.

Lemma new_Response_null (init : ResponseInit) :
  new_Response None init
  = {| status := init_status init;
       headers := init_headers init;
       body := None |}.
Proof. reflexivity. Qed.

End ResponseFacts.

(** Header names that differ after lower-casing. *)
Ltac header_ne :=
  let H := fresh in intros H; vm_compute in H; discriminate H.

(** A literal header name against a name known to differ from it. *)
Ltac other_header :=
  let Heq := fresh in
  intros Heq;
  match goal with
  | Hne : JsString.toLowerCase _ <> _ |- _ =>
      solve [apply Hne; rewrite <- Heq; reflexivity]
  end.

(** Reads a header back through a stack of [Headers.set]. *)
Ltac headers_simpl :=
  repeat first
    [ rewrite HeadersFacts.get_set_same
    | rewrite HeadersFacts.get_set_same_name by reflexivity
    | rewrite HeadersFacts.get_set_other by header_ne ].

(** ** The content fetcher: [generateResponse] *)

Section ContentFetcher.

Variable finalRequestPath : string.
Variable reqHeaders : gmap string string.
Variable env : Env.
Variable cache : gmap string Response.

Let key := JsString.slice1 finalRequestPath.

(** The fetcher reads the bucket once, with the options of
    [r2Options], and leaves the cache alone. *)
Lemma generateResponse_effects :
  events (generateResponse finalRequestPath reqHeaders env cache)
  = [BucketGet key (r2Options reqHeaders)]
  /\ cache_after (generateResponse finalRequestPath reqHeaders env cache)
     = cache.
Proof.
  unfold generateResponse, Js.bind, Js.call, key. simpl.
  destruct (FWM_BUCKER env _ _) as [[object|]|message]; simpl.
  - destruct (obj_body object); simpl; split; reflexivity.
  - split; reflexivity.
  - split; reflexivity.
Qed.

Lemma generateResponse_throws (message : string) :
  FWM_BUCKER env key (r2Options reqHeaders) = Throw message ->
  outcome (generateResponse finalRequestPath reqHeaders env cache)
  = Throw message.
Proof.
  intros Hget. unfold generateResponse, Js.bind, Js.call. simpl.
  fold key. now rewrite Hget.
Qed.

Lemma generateResponse_not_found :
  FWM_BUCKER env key (r2Options reqHeaders) = Normal None ->
  outcome (generateResponse finalRequestPath reqHeaders env cache)
  = Normal (new_Response (Some (BodyString "Object Not Found"))
                         (init_status_only 404)).
Proof.
  intros Hget. unfold generateResponse, Js.bind, Js.call. simpl.
  fold key. now rewrite Hget.
Qed.

Lemma getContentType_truthy (path value : string) :
  getContentType path = Some value -> JsString.truthy value = true.
Proof.
  unfold getContentType.
  repeat (destruct (JsString.endsWith path _);
          [intros [= <-]; reflexivity|]).
  discriminate.
Qed.

(** C5, as amended. The bucket is read once. The [onlyIf] option is
    always the request's headers. The [range] option is passed exactly
    when the request's Range header has a non-empty value, and then it
    is the request's headers. *)
Theorem range_option_iff_nonempty_range_header :
  events (generateResponse finalRequestPath reqHeaders env cache)
  = [BucketGet key (r2Options reqHeaders)]
  /\ onlyIf (r2Options reqHeaders) = reqHeaders
  /\ (range (r2Options reqHeaders) = Some reqHeaders
      <-> exists value,
            Headers.get reqHeaders "range" = Some value /\ value <> "")
  /\ (range (r2Options reqHeaders) = None
      <-> ~ exists value,
            Headers.get reqHeaders "range" = Some value /\ value <> "").
Proof.
  split; [apply generateResponse_effects|].
  split; [reflexivity|].
  unfold r2Options, truthy_value. simpl.
  destruct (Headers.get reqHeaders "range") as [value|].
  - destruct (JsString.truthy value) eqn:Htruthy.
    + apply JsStringFacts.truthy_nonempty in Htruthy.
      split; split; try discriminate; eauto.
      intros Hno. exfalso. apply Hno. eauto.
    + assert (value = "") as ->.
      { unfold JsString.truthy in Htruthy.
        destruct (String.eqb_spec value ""); [assumption|discriminate]. }
      split; split; try discriminate; try reflexivity.
      * intros [value [[= <-] Hne]]. congruence.
      * intros _ [value [[= <-] Hne]]. congruence.
  - split; split; try discriminate; try reflexivity.
    + intros [value [Hsome _]]. discriminate.
    + intros _ [value [Hsome _]]. discriminate.
Qed.

(** C6, as amended. When the request's Range header has a non-empty
    value and the bucket returns an object with a body and a range, the
    response is a 206 with the object's body and
    [Content-Range: bytes <offset>-<offset+length-1>/<size>]. *)
Theorem partial_content_response
    (value content : string) (object : R2Object) (r : R2Range) :
  Headers.get reqHeaders "range" = Some value ->
  value <> "" ->
  FWM_BUCKER env key (r2Options reqHeaders) = Normal (Some object) ->
  obj_body object = Some content ->
  obj_range object = Some r ->
  exists response,
    outcome (generateResponse finalRequestPath reqHeaders env cache)
    = Normal response
    /\ status response = 206
    /\ Headers.get (headers response) "Content-Range"
       = Some ("bytes " ++ JsString.of_number (offset r) ++ "-"
               ++ JsString.of_number (offset r + range_length r - 1)
               ++ "/" ++ JsString.of_number (size object))
    /\ body response = Some content.
Proof.
  intros Hrange Hvalue Hget Hbody Hobjrange.
  apply JsStringFacts.truthy_nonempty in Hvalue.
  unfold generateResponse, Js.bind, Js.call. simpl. fold key.
  rewrite Hget. simpl. rewrite Hbody, Hobjrange, Hrange. simpl.
  rewrite Hvalue. simpl.
  eexists. split; [reflexivity|]. simpl.
  split; [reflexivity|]. split; [|reflexivity].
  now headers_simpl.
Qed.

(** C7. When the bucket returns an object without a body, the response
    is a 304 with a null body; its [ETag] is the object's [httpEtag],
    its [Content-Type] is the one of the extension when the extension
    is known, its [Access-Control-Allow-Origin] is ["*"], and every
    other header is the one [writeHttpMetadata] wrote. *)
Theorem not_modified_response (object : R2Object) :
  FWM_BUCKER env key (r2Options reqHeaders) = Normal (Some object) ->
  obj_body object = None ->
  exists response,
    generateResponse finalRequestPath reqHeaders env cache
    = mkRun (Normal response) cache [BucketGet key (r2Options reqHeaders)]
    /\ status response = 304
    /\ body response = None
    /\ Headers.get (headers response) "ETag" = Some (httpEtag object)
    /\ Headers.get (headers response) "Access-Control-Allow-Origin"
       = Some "*"
    /\ (forall contentType,
          getContentType key = Some contentType ->
          Headers.get (headers response) "Content-Type" = Some contentType)
    /\ (forall name,
          JsString.toLowerCase name <> "etag" ->
          JsString.toLowerCase name <> "content-type" ->
          JsString.toLowerCase name <> "access-control-allow-origin" ->
          Headers.get (headers response) name
          = Headers.get (writeHttpMetadata object Headers.empty) name).
Proof.
  intros Hget Hbody.
  unfold generateResponse, Js.bind, Js.call. simpl. fold key.
  rewrite Hget. simpl. rewrite Hbody. simpl.
  eexists. split; [reflexivity|]. simpl.
  split; [reflexivity|]. split; [reflexivity|].
  destruct (getContentType key) as [contentType|] eqn:Htype.
  - rewrite (getContentType_truthy _ _ Htype).
    split; [now headers_simpl|]. split; [now headers_simpl|].
    split; [intros ? [= <-]; now headers_simpl|].
    intros name Hetag Htype' Hcors.
    now rewrite !HeadersFacts.get_set_other by other_header.
  - split; [now headers_simpl|]. split; [now headers_simpl|].
    split; [discriminate|].
    intros name Hetag Htype' Hcors.
    now rewrite !HeadersFacts.get_set_other by other_header.
Qed.

(** C10. Without a Range header no [range] option reaches the bucket,
    and whatever the bucket returns (a range included) the response is
    a 200, a 304 or a 404, never a 206; the fetcher fails only when the
    bucket read fails. *)
Theorem no_range_header_no_partial_content :
  Headers.has reqHeaders "range" = false ->
  events (generateResponse finalRequestPath reqHeaders env cache)
  = [BucketGet key {| onlyIf := reqHeaders; range := None |}]
  /\ match FWM_BUCKER env key {| onlyIf := reqHeaders; range := None |} with
     | Normal _ =>
         exists response,
           outcome (generateResponse finalRequestPath reqHeaders env cache)
           = Normal response
           /\ status response <> 206
           /\ (status response = 200 \/ status response = 304
               \/ status response = 404)
     | Throw message =>
         outcome (generateResponse finalRequestPath reqHeaders env cache)
         = Throw message
     end.
Proof.
  intros Hno. apply HeadersFacts.has_false_get in Hno.
  assert (r2Options reqHeaders = {| onlyIf := reqHeaders; range := None |})
    as Hopts by (unfold r2Options; now rewrite Hno).
  split.
  { rewrite <- Hopts. apply generateResponse_effects. }
  rewrite <- Hopts.
  unfold generateResponse, Js.bind, Js.call. simpl. fold key.
  destruct (FWM_BUCKER env key (r2Options reqHeaders))
    as [[object|]|message]; simpl; [| |reflexivity].
  - rewrite Hno. simpl.
    destruct (obj_body object); simpl; eexists;
      (split; [reflexivity|]); simpl; split; auto; lia.
  - eexists. split; [reflexivity|]. simpl. split; auto; lia.
Qed.

End ContentFetcher.

(** ** The request orchestrator: [fetch] *)

Section Handler.

Variable config : Config.
Variable CACHE_CONFIG : CacheConfig.
Variable akamaiWmt_getContentUrl :
  string -> list string -> Config -> Completion (option string).
Variable doveRunnerAes_getContentUrl :
  string -> list string -> string -> Config -> bool ->
  Completion (option string).
Variable wmUtil_removeRevokeToken :
  list string -> Completion (list string * bool).

Local Abbreviation checkWatermarkPath := (checkWatermarkPath config).
Local Abbreviation isCacheable := (isCacheable CACHE_CONFIG).
Local Abbreviation resolveFinalRequestPath :=
  (resolveFinalRequestPath config akamaiWmt_getContentUrl
     doveRunnerAes_getContentUrl wmUtil_removeRevokeToken).
Local Abbreviation serveResolved := (serveResolved CACHE_CONFIG).
Local Abbreviation fetch :=
  (fetch config CACHE_CONFIG akamaiWmt_getContentUrl
     doveRunnerAes_getContentUrl wmUtil_removeRevokeToken).

Lemma checkWatermarkPath_spec (reqPrefixFolder : string) :
  checkWatermarkPath reqPrefixFolder = true <->
  match prefixFolder config with
  | PrefixArray folders => In reqPrefixFolder folders
  | PrefixString folder => folder = reqPrefixFolder
  end.
Proof.
  unfold IndexJs.checkWatermarkPath.
  destruct (prefixFolder config) as [folders|folder].
  - rewrite existsb_exists. split.
    + intros [folder [Hin Heq]]. apply String.eqb_eq in Heq. now subst.
    + intros Hin. exists reqPrefixFolder. split; [assumption|].
      apply String.eqb_refl.
  - apply String.eqb_eq.
Qed.

Lemma isCacheable_spec (path : string) :
  isCacheable path = true <->
  exists ext stem,
    In ext (cacheableExtensions CACHE_CONFIG) /\ path = stem ++ ext.
Proof.
  unfold IndexJs.isCacheable. rewrite existsb_exists. split.
  - intros [ext [Hin Hends]].
    destruct (JsStringFacts.endsWith_elim _ _ Hends) as [stem Hstem].
    now exists ext, stem.
  - intros [ext [stem [Hin ->]]]. exists ext. split; [assumption|].
    apply JsStringFacts.endsWith_intro.
Qed.

(** Path resolution touches neither the cache nor the bucket. *)
Lemma resolve_effects (request : Request) (cache : gmap string Response) :
  cache_after (resolveFinalRequestPath request cache) = cache
  /\ existsb is_cache_event (events (resolveFinalRequestPath request cache))
     = false
  /\ existsb is_bucket_event (events (resolveFinalRequestPath request cache))
     = false.
Proof.
  unfold IndexJs.resolveFinalRequestPath, Js.bind, Js.call, Js.throw, Js.ret.
  destruct (nth_error _ 1) as [reqPrefixFolder|]; [|now simpl].
  destruct (JsString.startsWith reqPrefixFolder "wmt:"); [now simpl|].
  destruct (checkWatermarkPath reqPrefixFolder); [|now simpl].
  simpl. destruct (wmUtil_removeRevokeToken _) as [[arr revoked]|message];
    now simpl.
Qed.

(** The shape of a GET or HEAD run: resolution, then either an early
    404 or 400, or the serving of the resolved path with its failures
    turned into a 400. *)
Lemma fetch_run (request : Request) (env : Env)
    (cache : gmap string Response) :
  String.eqb (method request) "GET" || String.eqb (method request) "HEAD"
  = true ->
  let r := resolveFinalRequestPath request cache in
  match outcome r with
  | Normal (Some path) =>
      if JsString.truthy path then
        let s := serveResolved request env path cache in
        fetch request env cache
        = mkRun (match outcome s with
                 | Normal response => Normal response
                 | Throw message => Normal (bad_request message)
                 end)
                (cache_after s) (events r ++ events s)
      else fetch request env cache = mkRun (Normal not_found) cache (events r)
  | Normal None =>
      fetch request env cache = mkRun (Normal not_found) cache (events r)
  | Throw message =>
      fetch request env cache
      = mkRun (Normal (bad_request message)) cache (events r)
  end.
Proof.
  intros Hmethod r.
  destruct (resolve_effects request cache) as [Hcache _]. fold r in Hcache.
  unfold IndexJs.fetch, Js.try_catch, Js.bind. rewrite Hmethod.
  fold r. destruct r as [o c e]. simpl in *. subst c.
  destruct o as [[path|]|message]; simpl.
  - destruct (JsString.truthy path); simpl.
    + destruct (serveResolved request env path cache) as [o' c' e'].
      simpl. now destruct o'.
    + now rewrite app_nil_r.
  - now rewrite app_nil_r.
  - reflexivity.
Qed.

(** C8. A request whose method is neither GET nor HEAD gets a 405 with
    [Allow: GET, HEAD]; the run calls no token decoder, reads neither
    the cache nor the bucket, and leaves the cache as it was. *)
Theorem other_methods_rejected (request : Request) (env : Env)
    (cache : gmap string Response) :
  method request <> "GET" ->
  method request <> "HEAD" ->
  exists response,
    fetch request env cache = mkRun (Normal response) cache []
    /\ status response = 405
    /\ Headers.get (headers response) "Allow" = Some "GET, HEAD".
Proof.
  intros Hget Hhead.
  apply String.eqb_neq in Hget. apply String.eqb_neq in Hhead.
  unfold IndexJs.fetch. rewrite Hget, Hhead. simpl.
  eexists. split; [reflexivity|]. split; reflexivity.
Qed.

(** C9. A GET or HEAD request whose first path segment neither starts
    with [wmt:] nor equals a configured prefix folder gets a 404; the
    run makes no call at all (no decoder, no cache, no bucket) and
    leaves the cache as it was. *)
Theorem unknown_prefix_not_found (request : Request) (env : Env)
    (cache : gmap string Response) (firstSegment : string) :
  method request = "GET" \/ method request = "HEAD" ->
  nth_error (JsString.split "/" (pathname (url request))) 1
  = Some firstSegment ->
  (forall rest, firstSegment <> "wmt:" ++ rest) ->
  match prefixFolder config with
  | PrefixArray folders => ~ In firstSegment folders
  | PrefixString folder => folder <> firstSegment
  end ->
  exists response,
    fetch request env cache = mkRun (Normal response) cache []
    /\ status response = 404.
Proof.
  intros Hmethod Hsegment Hwmt Hfolder.
  assert (JsString.startsWith firstSegment "wmt:" = false) as Hstarts.
  { destruct (JsString.startsWith firstSegment "wmt:") eqn:E; [|reflexivity].
    destruct (JsStringFacts.startsWith_elim _ _ E) as [rest Hrest].
    now destruct (Hwmt rest). }
  assert (checkWatermarkPath firstSegment = false) as Hcheck.
  { destruct (checkWatermarkPath firstSegment) eqn:E; [|reflexivity].
    apply checkWatermarkPath_spec in E.
    destruct (prefixFolder config); contradiction. }
  assert (String.eqb (method request) "GET"
          || String.eqb (method request) "HEAD" = true) as Hok.
  { destruct Hmethod as [-> | ->]; reflexivity. }
  pose proof (fetch_run request env cache Hok) as Hrun. simpl in Hrun.
  unfold IndexJs.resolveFinalRequestPath in Hrun.
  rewrite Hsegment, Hstarts, Hcheck in Hrun. simpl in Hrun.
  exists not_found. split; [exact Hrun | reflexivity].
Qed.

(** *** Serving a resolved path *)

(** Splits a run of [serveResolved] into its branches: cacheable or
    not, cache enabled or not, hit or miss, then the outcome of the
    bucket read and the status and method tests. *)
Ltac serve_cases request env path cache :=
  unfold IndexJs.serveResolved, IndexJs.getFromCache,
    IndexJs.storeInCache, Js.bind, Js.ret, Js.cache_match, Js.cache_put;
  destruct (isCacheable path) eqn:Hextension;
  destruct (Headers.has (req_headers request) "range") eqn:Hrange;
  destruct (enabled CACHE_CONFIG) eqn:Henabled;
  simpl;
  try destruct (cache !! getCacheKey request path) as [cached|] eqn:Hlookup;
  simpl;
  let Hevents := fresh "Hevents" in
  let Hcache := fresh "Hcache" in
  destruct (generateResponse_effects path (req_headers request) env cache)
    as [Hevents Hcache];
  destruct (generateResponse path (req_headers request) env cache)
    as [originOutcome originCache originEvents];
  simpl in Hevents, Hcache; subst originCache originEvents;
  destruct originOutcome as [response|message]; simpl;
  try destruct (status response =? 200) eqn:Hstatus; simpl;
  destruct (String.eqb (method request) "HEAD") eqn:Hhead; simpl.

(** Membership in a short explicit event list. *)
Ltac in_cases H :=
  simpl in H;
  repeat (destruct H as [H|H]; [try discriminate H|]);
  try contradiction.

(** A path that is not cacheable, or a request with a Range header,
    goes straight to the bucket. *)
Lemma serve_bypass (request : Request) (env : Env) (path : string)
    (cache : gmap string Response) :
  isCacheable path && negb (Headers.has (req_headers request) "range")
  = false ->
  events (serveResolved request env path cache)
  = [BucketGet (JsString.slice1 path) (r2Options (req_headers request))]
  /\ cache_after (serveResolved request env path cache) = cache.
Proof.
  intros Hno. serve_cases request env path cache;
    try discriminate Hno; split; reflexivity.
Qed.

(** Every cache event of the serving step is keyed by [getCacheKey]. *)
Lemma serve_cache_keys (request : Request) (env : Env) (path : string)
    (cache : gmap string Response) (e : Event) (cacheKey : string) :
  In e (events (serveResolved request env path cache)) ->
  event_cache_key e = Some cacheKey ->
  cacheKey = getCacheKey request path.
Proof.
  intros Hin Hkey. revert Hin.
  serve_cases request env path cache; intros Hin; in_cases Hin;
    subst e; simpl in Hkey; congruence.
Qed.

(** What the serving step writes to the cache. *)
Lemma serve_put (request : Request) (env : Env) (path : string)
    (cache : gmap string Response) (cacheKey : string) (stored : Response) :
  In (CachePut cacheKey stored)
     (events (serveResolved request env path cache)) ->
  cacheKey = getCacheKey request path
  /\ cache_after (serveResolved request env path cache)
     = <[cacheKey := stored]> cache
  /\ exists response,
       outcome (generateResponse path (req_headers request) env cache)
       = Normal response
       /\ status response = 200
       /\ stored
          = {| status := status response;
               headers :=
                 Headers.set (headers response) "Cache-Control"
                   ("public, max-age="
                    ++ JsString.of_number (ttl CACHE_CONFIG));
               body := body response |}.
Proof.
  revert cacheKey stored.
  assert (forall response,
    new_Response (body_stream response)
      {| init_status := status response;
         init_headers :=
           Headers.set (headers response) "Cache-Control"
             ("public, max-age=" ++ JsString.of_number (ttl CACHE_CONFIG)) |}
    = {| status := status response;
         headers :=
           Headers.set (headers response) "Cache-Control"
             ("public, max-age=" ++ JsString.of_number (ttl CACHE_CONFIG));
         body := body response |}) as Hentry
    by (intros; apply ResponseFacts.new_Response_stream).
  serve_cases request env path cache; intros cacheKey stored Hin;
    in_cases Hin; injection Hin as <- <-;
    apply Z.eqb_eq in Hstatus;
    (split; [reflexivity|]); (split; [reflexivity|]);
    exists response; (split; [reflexivity|]); (split; [assumption|]);
    apply Hentry.
Qed.

(** A cache hit is answered from the cache alone. *)
Lemma serve_hit (request : Request) (env : Env) (path : string)
    (cache : gmap string Response) (cached : Response) :
  isCacheable path = true ->
  Headers.has (req_headers request) "range" = false ->
  enabled CACHE_CONFIG = true ->
  cache !! getCacheKey request path = Some cached ->
  exists response,
    serveResolved request env path cache
    = mkRun (Normal response) cache [CacheMatch (getCacheKey request path)]
    /\ Headers.get (headers response) "X-Cache-Status" = Some "HIT"
    /\ status response = status cached
    /\ body response
       = if String.eqb (method request) "HEAD" then None else body cached.
Proof.
  intros Hext Hno Hon Hhit.
  unfold IndexJs.serveResolved, IndexJs.getFromCache, Js.bind, Js.ret,
    Js.cache_match.
  rewrite Hext, Hno, Hon. simpl. rewrite Hhit. simpl.
  unfold set_header. rewrite ResponseFacts.new_Response_stream. simpl.
  destruct (String.eqb (method request) "HEAD"); simpl;
    eexists; (split; [reflexivity|]); simpl;
    (split; [now headers_simpl|]); split; reflexivity.
Qed.

(** Without a hit, a cacheable request is answered from the bucket: a
    200 is tagged [MISS], anything else is passed on as it is, and a
    failed read fails the step. *)
Lemma serve_miss (request : Request) (env : Env) (path : string)
    (cache : gmap string Response) :
  isCacheable path = true ->
  Headers.has (req_headers request) "range" = false ->
  enabled CACHE_CONFIG = false
  \/ cache !! getCacheKey request path = None ->
  match outcome (generateResponse path (req_headers request) env cache) with
  | Normal originResponse =>
      if status originResponse =? 200 then
        exists response,
          outcome (serveResolved request env path cache) = Normal response
          /\ Headers.get (headers response) "X-Cache-Status" = Some "MISS"
          /\ status response = 200
          /\ body response
             = if String.eqb (method request) "HEAD" then None
               else body originResponse
      else
        outcome (serveResolved request env path cache)
        = Normal (if String.eqb (method request) "HEAD"
                  then new_Response None (init_of_response originResponse)
                  else originResponse)
  | Throw message =>
      outcome (serveResolved request env path cache) = Throw message
  end.
Proof.
  intros Hext Hno Hmiss.
  assert (forall response,
    set_header
      (new_Response (body_stream response) (init_of_response response))
      "X-Cache-Status" "MISS"
    = {| status := status response;
         headers := Headers.set (headers response) "X-Cache-Status" "MISS";
         body := body response |}) as Htag.
  { intros. now rewrite ResponseFacts.new_Response_stream. }
  serve_cases request env path cache;
    try discriminate Hext; try discriminate Hno;
    try (destruct Hmiss as [Hmiss|Hmiss]; discriminate Hmiss);
    try reflexivity;
    apply Z.eqb_eq in Hstatus; rewrite Htag; simpl;
    eexists; (split; [reflexivity|]); simpl;
    (split; [now headers_simpl|]); split; auto.
Qed.

(** *** The whole handler *)

(** A run either stops before serving (405, 404 and 400 of the
    resolution step), with the cache and the bucket untouched, or
    resolves a non-empty path and serves it. *)
Lemma fetch_shape (request : Request) (env : Env)
    (cache : gmap string Response) :
  (cache_after (fetch request env cache) = cache
   /\ existsb is_cache_event (events (fetch request env cache)) = false
   /\ existsb is_bucket_event (events (fetch request env cache)) = false)
  \/ (exists path,
        (method request = "GET" \/ method request = "HEAD")
        /\ outcome (resolveFinalRequestPath request cache)
           = Normal (Some path)
        /\ path <> ""
        /\ events (fetch request env cache)
           = (events (resolveFinalRequestPath request cache)
              ++ events (serveResolved request env path cache))%list
        /\ cache_after (fetch request env cache)
           = cache_after (serveResolved request env path cache)
        /\ outcome (fetch request env cache)
           = match outcome (serveResolved request env path cache) with
             | Normal response => Normal response
             | Throw message => Normal (bad_request message)
             end).
Proof.
  destruct (String.eqb (method request) "GET"
            || String.eqb (method request) "HEAD") eqn:Hok.
  - pose proof (fetch_run request env cache Hok) as Hrun. simpl in Hrun.
    destruct (resolve_effects request cache) as (_ & Hnocache & Hnobucket).
    destruct (outcome (resolveFinalRequestPath request cache))
      as [[path|]|message] eqn:Hresolved.
    + destruct (JsString.truthy path) eqn:Htruthy.
      * right. exists path. rewrite Hrun. simpl.
        apply JsStringFacts.truthy_nonempty in Htruthy.
        apply orb_true_iff in Hok.
        rewrite !String.eqb_eq in Hok. tauto.
      * left. rewrite Hrun. simpl. tauto.
    + left. rewrite Hrun. simpl. tauto.
    + left. rewrite Hrun. simpl. tauto.
  - left. unfold IndexJs.fetch. rewrite Hok. simpl. tauto.
Qed.

Lemma cache_key_is_cache_event (e : Event) (cacheKey : string) :
  event_cache_key e = Some cacheKey -> is_cache_event e = true.
Proof. now destruct e. Qed.

(** A cache event of a run belongs to the serving of a resolved,
    non-empty path. *)
Lemma fetch_cache_event (request : Request) (env : Env)
    (cache : gmap string Response) (e : Event) :
  In e (events (fetch request env cache)) ->
  is_cache_event e = true ->
  exists path,
    outcome (resolveFinalRequestPath request cache) = Normal (Some path)
    /\ path <> ""
    /\ In e (events (serveResolved request env path cache))
    /\ cache_after (fetch request env cache)
       = cache_after (serveResolved request env path cache).
Proof.
  intros Hin Hcache.
  destruct (fetch_shape request env cache)
    as [(_ & Hnone & _) | (path & _ & Hpath & Hne & Hev & Hafter & _)].
  - assert (existsb is_cache_event (events (fetch request env cache)) = true)
      as Hsome by (apply existsb_exists; eauto).
    congruence.
  - exists path. repeat (split; [assumption|]). split; [|assumption].
    rewrite Hev in Hin. apply in_app_or in Hin as [Hin|Hin]; [|assumption].
    destruct (resolve_effects request cache) as (_ & Hnone & _).
    assert (existsb is_cache_event
              (events (resolveFinalRequestPath request cache)) = true)
      as Hsome by (apply existsb_exists; eauto).
    congruence.
Qed.

(** C1. The cache is looked up, stored to or changed only for a
    resolved path that ends with an allow-listed extension, on a
    request without a Range header; with a Range header the run has no
    cache event and leaves the cache as it was. *)
Theorem cache_access_only_when_cacheable (request : Request) (env : Env)
    (cache : gmap string Response) :
  (existsb is_cache_event (events (fetch request env cache)) = true
   \/ cache_after (fetch request env cache) <> cache ->
   exists path,
     outcome (resolveFinalRequestPath request cache) = Normal (Some path)
     /\ path <> ""
     /\ isCacheable path = true
     /\ Headers.has (req_headers request) "range" = false
     /\ exists ext stem,
          In ext (cacheableExtensions CACHE_CONFIG) /\ path = stem ++ ext)
  /\ (Headers.has (req_headers request) "range" = true ->
      existsb is_cache_event (events (fetch request env cache)) = false
      /\ cache_after (fetch request env cache) = cache).
Proof.
  destruct (fetch_shape request env cache)
    as [(Hsame & Hnone & _) | (path & _ & Hpath & Hne & Hev & Hafter & _)].
  - split; [|tauto]. intros [Hsome | Hchanged]; [congruence | contradiction].
  - destruct (resolve_effects request cache) as (_ & Hnone & _).
    assert (isCacheable path
            && negb (Headers.has (req_headers request) "range") = false ->
            existsb is_cache_event (events (fetch request env cache)) = false
            /\ cache_after (fetch request env cache) = cache) as Hbypass.
    { intros Hno.
      destruct (serve_bypass request env path cache Hno) as [Hserve Hkeep].
      rewrite Hev, Hafter, Hserve, existsb_app, Hnone. now split. }
    split.
    + intros Haccess.
      destruct (isCacheable path
                && negb (Headers.has (req_headers request) "range"))
        eqn:Hshould.
      * apply andb_true_iff in Hshould as [Hext Hno].
        apply negb_true_iff in Hno.
        exists path. repeat (split; [assumption|]).
        now apply isCacheable_spec.
      * destruct (Hbypass eq_refl) as [Hfalse Hkeep].
        destruct Haccess as [Hsome | Hchanged];
          [congruence | contradiction].
    + intros Hrange. apply Hbypass. rewrite Hrange. apply andb_false_r.
Qed.

(** C2. Whatever the handler puts in the cache has status 200, the
    status of the bucket response it copies, and
    [Cache-Control: public, max-age=<ttl>] in place of any value the
    bucket response had; body and other headers are those of the bucket
    response, the key is [getCacheKey] of the resolved path, and the
    entry is in the cache after the run. *)
Theorem stored_entries_are_200_with_ttl (request : Request) (env : Env)
    (cache : gmap string Response) (cacheKey : string) (stored : Response) :
  In (CachePut cacheKey stored) (events (fetch request env cache)) ->
  status stored = 200
  /\ Headers.get (headers stored) "Cache-Control"
     = Some ("public, max-age=" ++ JsString.of_number (ttl CACHE_CONFIG))
  /\ exists path originResponse,
       outcome (resolveFinalRequestPath request cache) = Normal (Some path)
       /\ cacheKey = getCacheKey request path
       /\ outcome (generateResponse path (req_headers request) env cache)
          = Normal originResponse
       /\ status originResponse = 200
       /\ body stored = body originResponse
       /\ (forall name,
             JsString.toLowerCase name <> "cache-control" ->
             Headers.get (headers stored) name
             = Headers.get (headers originResponse) name)
       /\ cache_after (fetch request env cache) !! cacheKey = Some stored.
Proof.
  intros Hin.
  destruct (fetch_cache_event request env cache _ Hin eq_refl)
    as (path & Hpath & _ & Hserve & Hafter).
  destruct (serve_put request env path cache cacheKey stored Hserve)
    as (Hkey & Hput & originResponse & Horigin & Hstatus & ->).
  simpl. split; [assumption|]. split; [now headers_simpl|].
  exists path, originResponse.
  repeat (split; [assumption || reflexivity|]).
  split.
  - intros name Hname.
    now rewrite HeadersFacts.get_set_other by other_header.
  - rewrite Hafter, Hput. apply lookup_insert_eq.
Qed.

(** C3, as amended. On a cacheable request (resolved path with an
    allow-listed extension, no Range header) the response carries
    [X-Cache-Status: HIT] when it is served from the cache, and
    [X-Cache-Status: MISS] when it is read from the bucket with status
    200. A bucket response with another status is returned as it is
    (without its body for HEAD). *)
Theorem cache_status_header (request : Request) (env : Env)
    (cache : gmap string Response) (path : string) :
  method request = "GET" \/ method request = "HEAD" ->
  outcome (resolveFinalRequestPath request cache) = Normal (Some path) ->
  path <> "" ->
  isCacheable path = true ->
  Headers.has (req_headers request) "range" = false ->
  (forall cached,
     enabled CACHE_CONFIG = true ->
     cache !! getCacheKey request path = Some cached ->
     exists response,
       outcome (fetch request env cache) = Normal response
       /\ Headers.get (headers response) "X-Cache-Status" = Some "HIT"
       /\ status response = status cached
       /\ body response
          = if String.eqb (method request) "HEAD" then None
            else body cached)
  /\ (enabled CACHE_CONFIG = false
      \/ cache !! getCacheKey request path = None ->
      forall originResponse,
        outcome (generateResponse path (req_headers request) env cache)
        = Normal originResponse ->
        (status originResponse = 200 ->
         exists response,
           outcome (fetch request env cache) = Normal response
           /\ Headers.get (headers response) "X-Cache-Status" = Some "MISS"
           /\ status response = 200
           /\ body response
              = if String.eqb (method request) "HEAD" then None
                else body originResponse)
        /\ (status originResponse <> 200 ->
            outcome (fetch request env cache)
            = Normal (if String.eqb (method request) "HEAD"
                      then new_Response None
                             (init_of_response originResponse)
                      else originResponse))).
Proof.
  intros Hmethod Hpath Hne Hext Hno.
  assert (outcome (fetch request env cache)
          = match outcome (serveResolved request env path cache) with
            | Normal response => Normal response
            | Throw message => Normal (bad_request message)
            end) as Hfetch.
  { assert (String.eqb (method request) "GET"
            || String.eqb (method request) "HEAD" = true) as Hok
      by (destruct Hmethod as [-> | ->]; reflexivity).
    pose proof (fetch_run request env cache Hok) as Hrun. simpl in Hrun.
    apply JsStringFacts.truthy_nonempty in Hne.
    rewrite Hpath, Hne in Hrun. now rewrite Hrun. }
  split.
  - intros cached Hon Hhit.
    destruct (serve_hit request env path cache cached Hext Hno Hon Hhit)
      as (response & Hrun & Hrest).
    exists response. rewrite Hfetch, Hrun. now simpl.
  - intros Hmiss originResponse Horigin.
    pose proof (serve_miss request env path cache Hext Hno Hmiss) as Hserve.
    rewrite Horigin in Hserve. split.
    + intros Hstatus. apply Z.eqb_eq in Hstatus. rewrite Hstatus in Hserve.
      destruct Hserve as (response & Hrun & Hrest).
      exists response. rewrite Hfetch, Hrun. now simpl.
    + intros Hstatus. apply Z.eqb_neq in Hstatus. rewrite Hstatus in Hserve.
      now rewrite Hfetch, Hserve.
Qed.

(** C4. The cache key is the request's origin followed by the resolved
    path. Two requests with the same origin that resolve to the same
    path have the same key, whatever their own paths and query strings,
    and every cache lookup and store of their runs uses that key. *)
Theorem cache_key_is_origin_and_resolved_path
    (request1 request2 : Request) (env1 env2 : Env)
    (cache1 cache2 : gmap string Response) (path : string) :
  origin (url request1) = origin (url request2) ->
  outcome (resolveFinalRequestPath request1 cache1) = Normal (Some path) ->
  outcome (resolveFinalRequestPath request2 cache2) = Normal (Some path) ->
  getCacheKey request1 path = origin (url request1) ++ path
  /\ getCacheKey request2 path = getCacheKey request1 path
  /\ (forall e cacheKey,
        In e (events (fetch request1 env1 cache1))
        \/ In e (events (fetch request2 env2 cache2)) ->
        event_cache_key e = Some cacheKey ->
        cacheKey = origin (url request1) ++ path).
Proof.
  intros Horigin Hpath1 Hpath2.
  split; [reflexivity|].
  split; [unfold getCacheKey; now rewrite Horigin|].
  intros e cacheKey Hin Hkey.
  pose proof (cache_key_is_cache_event e cacheKey Hkey) as Hcache.
  destruct Hin as [Hin|Hin].
  - destruct (fetch_cache_event request1 env1 cache1 e Hin Hcache)
      as (path' & Hpath' & _ & Hserve & _).
    assert (path' = path) as -> by congruence.
    apply (serve_cache_keys request1 env1 path cache1 e cacheKey Hserve Hkey).
  - destruct (fetch_cache_event request2 env2 cache2 e Hin Hcache)
      as (path' & Hpath' & _ & Hserve & _).
    assert (path' = path) as -> by congruence.
    rewrite (serve_cache_keys request2 env2 path cache2 e cacheKey
               Hserve Hkey).
    unfold getCacheKey. now rewrite Horigin.
Qed.

End Handler.

(** ** The theorems at concrete requests *)

(** C5, counterexample. A request whose Range header has the empty value
    carries the header, yet the bucket is read without a [range]
    option. *)
Lemma range_option_counterexample :
  ~ (Headers.has Samples.empty_range "range" = true <->
     exists key r2Options rangeOption,
       In (BucketGet key r2Options)
          (events (generateResponse Samples.segment_path Samples.empty_range
                     Samples.env Samples.empty_cache))
       /\ range r2Options = Some rangeOption).
Proof.
  intros [Hpass _].
  destruct (Hpass eq_refl) as (key & options & rangeOption & Hin & Hrange).
  vm_compute in Hin. destruct Hin as [Hin|[]].
  injection Hin as <- <-. discriminate Hrange.
Qed.

(** C6, counterexample. With a Range header and an object that has a
    range, the response is not a 206 when the Range value is empty (200)
    or when the object has no body (304). *)
Lemma partial_content_counterexample :
  ~ (Headers.has Samples.empty_range "range" = true ->
     FWM_BUCKER Samples.env (JsString.slice1 Samples.segment_path)
       (r2Options Samples.empty_range) = Normal (Some Samples.segment_part) ->
     obj_range Samples.segment_part <> None ->
     response_status
       (generateResponse Samples.segment_path Samples.empty_range Samples.env
          Samples.empty_cache) = Some 206)
  /\ ~ (Headers.has Samples.range_and_if_none_match "range" = true ->
        FWM_BUCKER Samples.env (JsString.slice1 Samples.playlist_path)
          (r2Options Samples.range_and_if_none_match)
        = Normal (Some Samples.playlist_not_modified) ->
        obj_range Samples.playlist_not_modified <> None ->
        response_status
          (generateResponse Samples.playlist_path
             Samples.range_and_if_none_match Samples.env Samples.empty_cache)
        = Some 206).
Proof.
  split; intros Hclaim.
  - assert (response_status
              (generateResponse Samples.segment_path Samples.empty_range
                 Samples.env Samples.empty_cache) = Some 200) as Hcode
      by (vm_compute; reflexivity).
    rewrite Hclaim in Hcode; [discriminate Hcode| | |];
      vm_compute; (reflexivity || discriminate).
  - assert (response_status
              (generateResponse Samples.playlist_path
                 Samples.range_and_if_none_match Samples.env
                 Samples.empty_cache) = Some 304) as Hcode
      by (vm_compute; reflexivity).
    rewrite Hclaim in Hcode; [discriminate Hcode| | |];
      vm_compute; (reflexivity || discriminate).
Qed.

(** C6 at a ranged read of a segment. *)
Lemma partial_content_response_witness :
  Headers.get Samples.range_100_109 "range" = Some "bytes=100-109"
  /\ exists response,
       outcome (generateResponse Samples.segment_path Samples.range_100_109
                  Samples.env Samples.empty_cache) = Normal response
       /\ status response = 206
       /\ Headers.get (headers response) "Content-Range"
          = Some "bytes 100-109/5000"
       /\ body response = Some "0123456789".
Proof.
  assert (Headers.get Samples.range_100_109 "range" = Some "bytes=100-109")
    as Hrange by (vm_compute; reflexivity).
  split; [exact Hrange|].
  apply (partial_content_response Samples.segment_path Samples.range_100_109
           Samples.env Samples.empty_cache "bytes=100-109" "0123456789"
           Samples.segment_part {| offset := 100; range_length := 10 |}).
  - exact Hrange.
  - discriminate.
  - vm_compute; reflexivity.
  - reflexivity.
  - reflexivity.
Defined.

(** C7 at a playlist read with a matching [If-None-Match]. *)
Lemma not_modified_response_witness :
  FWM_BUCKER Samples.env (JsString.slice1 Samples.playlist_path)
    (r2Options Samples.if_none_match)
  = Normal (Some Samples.playlist_not_modified)
  /\ exists response,
       outcome (generateResponse Samples.playlist_path Samples.if_none_match
                  Samples.env Samples.empty_cache) = Normal response
       /\ status response = 304
       /\ body response = None
       /\ Headers.get (headers response) "ETag" = Some "etag-1"
       /\ Headers.get (headers response) "Content-Type"
          = Some "application/vnd.apple.mpegurl"
       /\ Headers.get (headers response) "Access-Control-Allow-Origin"
          = Some "*".
Proof.
  assert (FWM_BUCKER Samples.env (JsString.slice1 Samples.playlist_path)
            (r2Options Samples.if_none_match)
          = Normal (Some Samples.playlist_not_modified)) as Hget
    by (vm_compute; reflexivity).
  split; [exact Hget|].
  destruct (not_modified_response Samples.playlist_path Samples.if_none_match
              Samples.env Samples.empty_cache Samples.playlist_not_modified
              Hget eq_refl)
    as (response & Hrun & Hstatus & Hbody & Hetag & Hcors & Htype & _).
  exists response. rewrite Hrun. simpl.
  repeat (split; [reflexivity || assumption|]).
  split; [|assumption].
  apply Htype. vm_compute; reflexivity.
Defined.

(** C10 at a playlist read without headers. *)
Lemma no_range_header_no_partial_content_witness :
  Headers.has Headers.empty "range" = false
  /\ exists response,
       outcome (generateResponse Samples.playlist_path Headers.empty
                  Samples.env Samples.empty_cache) = Normal response
       /\ status response <> 206.
Proof.
  split; [reflexivity|].
  destruct (no_range_header_no_partial_content Samples.playlist_path
              Headers.empty Samples.env Samples.empty_cache eq_refl)
    as [_ Hout].
  destruct Hout as (response & Hresponse & Hstatus & _).
  now exists response.
Defined.

(** C1 at a playlist request, without and with a Range header. *)
Lemma cache_access_only_when_cacheable_witness :
  (existsb is_cache_event
     (events (Samples.handle Samples.get_playlist Samples.env
                Samples.empty_cache)) = true
   /\ exists path,
        outcome (Samples.resolve Samples.get_playlist
                   Samples.empty_cache) = Normal (Some path)
        /\ path <> ""
        /\ isCacheable ConfigJs.CACHE_CONFIG path = true
        /\ Headers.has (req_headers Samples.get_playlist) "range" = false
        /\ exists ext stem,
             In ext [".m3u8"; ".ts"; ".mp4"; ".m4s"; ".mpd"]
             /\ path = stem ++ ext)
  /\ (Headers.has (req_headers Samples.get_playlist_range) "range" = true
      /\ existsb is_cache_event
           (events (Samples.handle Samples.get_playlist_range Samples.env
                      Samples.empty_cache)) = false
      /\ cache_after (Samples.handle Samples.get_playlist_range Samples.env
                        Samples.empty_cache) = Samples.empty_cache).
Proof.
  split.
  - assert (existsb is_cache_event
              (events (Samples.handle Samples.get_playlist Samples.env
                         Samples.empty_cache)) = true) as Hlookup
      by (vm_compute; reflexivity).
    split; [exact Hlookup|].
    apply (proj1 (cache_access_only_when_cacheable ConfigJs.config
                    ConfigJs.CACHE_CONFIG Samples.akamaiWmt_getContentUrl
                    Samples.doveRunnerAes_getContentUrl
                    Samples.wmUtil_removeRevokeToken Samples.get_playlist
                    Samples.env Samples.empty_cache)).
    left. exact Hlookup.
  - assert (Headers.has (req_headers Samples.get_playlist_range) "range"
            = true) as Hrange by (vm_compute; reflexivity).
    split; [exact Hrange|].
    apply (proj2 (cache_access_only_when_cacheable ConfigJs.config
                    ConfigJs.CACHE_CONFIG Samples.akamaiWmt_getContentUrl
                    Samples.doveRunnerAes_getContentUrl
                    Samples.wmUtil_removeRevokeToken
                    Samples.get_playlist_range Samples.env
                    Samples.empty_cache)).
    exact Hrange.
Defined.

(** C2 at a first playlist request: the stored entry has
    [max-age=3600] although the object's metadata says [no-store]. *)
Lemma stored_entries_are_200_with_ttl_witness :
  In (CachePut Samples.playlist_key Samples.stored_playlist)
     (events (Samples.handle Samples.get_playlist Samples.env
                Samples.empty_cache))
  /\ status Samples.stored_playlist = 200
  /\ Headers.get (headers Samples.stored_playlist) "Cache-Control"
     = Some "public, max-age=3600"
  /\ Headers.get
       (writeHttpMetadata Samples.playlist Headers.empty) "Cache-Control"
     = Some "no-store".
Proof.
  assert (In (CachePut Samples.playlist_key Samples.stored_playlist)
             (events (Samples.handle Samples.get_playlist Samples.env
                        Samples.empty_cache))) as Hin.
  { vm_compute. do 4 right. left. reflexivity. }
  split; [exact Hin|].
  destruct (stored_entries_are_200_with_ttl ConfigJs.config
              ConfigJs.CACHE_CONFIG Samples.akamaiWmt_getContentUrl
              Samples.doveRunnerAes_getContentUrl
              Samples.wmUtil_removeRevokeToken Samples.get_playlist
              Samples.env Samples.empty_cache Samples.playlist_key
              Samples.stored_playlist Hin)
    as (Hstatus & Hcontrol & _).
  split; [exact Hstatus|]. split; [exact Hcontrol|].
  vm_compute; reflexivity.
Defined.

(** C3, counterexample. A cacheable request for an object the bucket
    does not have gets the 404 of the content fetcher, whose
    [X-Cache-Status] is neither [HIT] nor [MISS]: it has none. *)
Lemma cache_status_counterexample :
  ~ (outcome (Samples.resolve Samples.get_missing
                Samples.empty_cache) = Normal (Some Samples.missing_path) ->
     isCacheable ConfigJs.CACHE_CONFIG Samples.missing_path = true ->
     Headers.has (req_headers Samples.get_missing) "range" = false ->
     response_header
       (Samples.handle Samples.get_missing Samples.env Samples.empty_cache)
       "X-Cache-Status" = Some "HIT"
     \/ response_header
          (Samples.handle Samples.get_missing Samples.env Samples.empty_cache)
          "X-Cache-Status" = Some "MISS").
Proof.
  intros Hclaim.
  assert (response_status
            (Samples.handle Samples.get_missing Samples.env
               Samples.empty_cache) = Some 404
          /\ response_header
               (Samples.handle Samples.get_missing Samples.env
                  Samples.empty_cache) "X-Cache-Status" = None)
    as [_ Hcode] by (split; vm_compute; reflexivity).
  destruct Hclaim as [Hhit|Hmiss];
    try (vm_compute; reflexivity); congruence.
Qed.

(** C3 at a playlist request, on a warm and on an empty cache. *)
Lemma cache_status_header_witness :
  isCacheable ConfigJs.CACHE_CONFIG Samples.playlist_path = true
  /\ Headers.has (req_headers Samples.get_playlist) "range" = false
  /\ response_header
       (Samples.handle Samples.get_playlist Samples.env Samples.warm_cache)
       "X-Cache-Status" = Some "HIT"
  /\ response_header
       (Samples.handle Samples.get_playlist Samples.env Samples.empty_cache)
       "X-Cache-Status" = Some "MISS".
Proof.
  assert (isCacheable ConfigJs.CACHE_CONFIG Samples.playlist_path = true)
    as Hext by (vm_compute; reflexivity).
  assert (Headers.has (req_headers Samples.get_playlist) "range" = false)
    as Hno by (vm_compute; reflexivity).
  split; [exact Hext|]. split; [exact Hno|]. split.
  - destruct (cache_status_header ConfigJs.config ConfigJs.CACHE_CONFIG
                Samples.akamaiWmt_getContentUrl
                Samples.doveRunnerAes_getContentUrl
                Samples.wmUtil_removeRevokeToken Samples.get_playlist
                Samples.env Samples.warm_cache Samples.playlist_path
                (or_introl eq_refl) ltac:(vm_compute; reflexivity)
                ltac:(discriminate) Hext Hno) as [Hhit _].
    destruct (Hhit Samples.stored_playlist eq_refl
                ltac:(vm_compute; reflexivity))
      as (response & Hout & Hheader & _).
    unfold response_header, Samples.handle. now rewrite Hout.
  - destruct (cache_status_header ConfigJs.config ConfigJs.CACHE_CONFIG
                Samples.akamaiWmt_getContentUrl
                Samples.doveRunnerAes_getContentUrl
                Samples.wmUtil_removeRevokeToken Samples.get_playlist
                Samples.env Samples.empty_cache Samples.playlist_path
                (or_introl eq_refl) ltac:(vm_compute; reflexivity)
                ltac:(discriminate) Hext Hno) as [_ Hmiss].
    edestruct Hmiss as [Hok _];
      [right; vm_compute; reflexivity | vm_compute; reflexivity |].
    destruct (Hok eq_refl) as (response & Hout & Hheader & _).
    unfold response_header, Samples.handle. now rewrite Hout.
Defined.

(** C4 at two WMT requests with different tokens and query strings. *)
Lemma cache_key_is_origin_and_resolved_path_witness :
  pathname (url Samples.get_wmt_a) <> pathname (url Samples.get_wmt_b)
  /\ search (url Samples.get_wmt_a) <> search (url Samples.get_wmt_b)
  /\ getCacheKey Samples.get_wmt_a Samples.playlist_path
     = Samples.playlist_key
  /\ getCacheKey Samples.get_wmt_b Samples.playlist_path
     = getCacheKey Samples.get_wmt_a Samples.playlist_path
  /\ forall e cacheKey,
       In e (events (Samples.handle Samples.get_wmt_a Samples.env
                       Samples.empty_cache))
       \/ In e (events (Samples.handle Samples.get_wmt_b Samples.env
                          Samples.warm_cache)) ->
       event_cache_key e = Some cacheKey ->
       cacheKey = Samples.playlist_key.
Proof.
  split; [discriminate|]. split; [discriminate|].
  apply (cache_key_is_origin_and_resolved_path ConfigJs.config
           ConfigJs.CACHE_CONFIG Samples.akamaiWmt_getContentUrl
           Samples.doveRunnerAes_getContentUrl
           Samples.wmUtil_removeRevokeToken
           Samples.get_wmt_a Samples.get_wmt_b Samples.env Samples.env
           Samples.empty_cache Samples.warm_cache Samples.playlist_path).
  - reflexivity.
  - vm_compute; reflexivity.
  - vm_compute; reflexivity.
Defined.

(** C8 at a POST. *)
Lemma other_methods_rejected_witness :
  method Samples.post_playlist <> "GET"
  /\ method Samples.post_playlist <> "HEAD"
  /\ exists response,
       Samples.handle Samples.post_playlist Samples.env Samples.warm_cache
       = mkRun (Normal response) Samples.warm_cache []
       /\ status response = 405
       /\ Headers.get (headers response) "Allow" = Some "GET, HEAD".
Proof.
  split; [discriminate|]. split; [discriminate|].
  apply (other_methods_rejected ConfigJs.config ConfigJs.CACHE_CONFIG
           Samples.akamaiWmt_getContentUrl Samples.doveRunnerAes_getContentUrl
           Samples.wmUtil_removeRevokeToken Samples.post_playlist Samples.env
           Samples.warm_cache); discriminate.
Defined.

(** C9 at a GET under a folder that is not configured. *)
Lemma unknown_prefix_not_found_witness :
  nth_error (JsString.split "/" (pathname (url Samples.get_unknown_folder))) 1
  = Some "other"
  /\ exists response,
       Samples.handle Samples.get_unknown_folder Samples.env
         Samples.warm_cache
       = mkRun (Normal response) Samples.warm_cache []
       /\ status response = 404.
Proof.
  split; [reflexivity|].
  apply (unknown_prefix_not_found ConfigJs.config ConfigJs.CACHE_CONFIG
           Samples.akamaiWmt_getContentUrl Samples.doveRunnerAes_getContentUrl
           Samples.wmUtil_removeRevokeToken Samples.get_unknown_folder
           Samples.env Samples.warm_cache "other").
  - left. reflexivity.
  - reflexivity.
  - intros rest. discriminate.
  - simpl. intros [H|[H|[]]]; discriminate H.
Defined.


(** * Further properties of the worker *)

(** ** Strings: splitting, joining and suffixes *)

Module JsStringMore.
Import JsString.

Lemma append_associative (a b c : string) : (a ++ b) ++ c = a ++ (b ++ c).
Proof.
  induction a as [|x a IH]; [reflexivity|].
  rewrite !JsStringFacts.append_cons. now rewrite IH.
Qed.


(** Two suffixes of one string that have the same length are equal. *)
Lemma append_suffix_inj (s t a b : string) :
  String.length a = String.length b -> s ++ a = t ++ b -> a = b.
Proof.
  revert t. induction s as [|x s IH]; intros [|y t] Hlen Heq.
  - exact Heq.
  - rewrite JsStringFacts.append_nil in Heq. subst a.
    rewrite JsStringFacts.append_cons in Hlen. simpl in Hlen.
    rewrite JsStringFacts.length_append in Hlen. lia.
  - rewrite JsStringFacts.append_nil in Heq. subst b.
    rewrite JsStringFacts.append_cons in Hlen. simpl in Hlen.
    rewrite JsStringFacts.length_append in Hlen. lia.
  - rewrite !JsStringFacts.append_cons in Heq.
    injection Heq as _ Heq. now apply (IH t).
Qed.

(** A string that ends with [a2] does not end with a suffix whose tail of
    the same length is another string. *)
Lemma endsWith_other (stem a1 a2 b1 b2 : string) :
  String.length a2 = String.length b2 ->
  a2 <> b2 ->
  endsWith (stem ++ (a1 ++ a2)) (b1 ++ b2) = false.
Proof.
  intros Hlen Hne.
  destruct (endsWith (stem ++ (a1 ++ a2)) (b1 ++ b2)) eqn:Hends;
    [|reflexivity].
  destruct (JsStringFacts.endsWith_elim _ _ Hends) as [stem' Heq].
  rewrite <- !append_associative in Heq.
  now apply append_suffix_inj in Heq.
Qed.

End JsStringMore.

(** ** Extensions, content types and cacheability *)

(** X1. The content type depends on the extension alone: whatever comes
    before it, a name ending in one of the five streaming extensions
    gets that extension's MIME type. *)
Theorem content_type_by_extension (stem : string) :
  getContentType (stem ++ ".m3u8") = Some "application/vnd.apple.mpegurl"
  /\ getContentType (stem ++ ".ts") = Some "video/mp2t"
  /\ getContentType (stem ++ ".mp4") = Some "video/mp4"
  /\ getContentType (stem ++ ".m4s") = Some "video/iso.segment"
  /\ getContentType (stem ++ ".mpd") = Some "application/dash+xml".
Proof.
  assert (forall a1 a2 b1 b2,
            String.length a2 = String.length b2 -> a2 <> b2 ->
            JsString.endsWith (stem ++ (a1 ++ a2)) (b1 ++ b2) = false)
    as Hother by (intros; now apply JsStringMore.endsWith_other).
  unfold getContentType. repeat split.
  - now rewrite JsStringFacts.endsWith_intro.
  - rewrite (Hother "" ".ts" ".m" "3u8" eq_refl ltac:(discriminate)
             : JsString.endsWith (stem ++ ".ts") ".m3u8" = false).
    now rewrite JsStringFacts.endsWith_intro.
  - rewrite (Hother "." "mp4" ".m" "3u8" eq_refl ltac:(discriminate)
             : JsString.endsWith (stem ++ ".mp4") ".m3u8" = false).
    rewrite (Hother "." "mp4" "" ".ts" eq_refl ltac:(discriminate)
             : JsString.endsWith (stem ++ ".mp4") ".ts" = false).
    now rewrite JsStringFacts.endsWith_intro.
  - rewrite (Hother "." "m4s" ".m" "3u8" eq_refl ltac:(discriminate)
             : JsString.endsWith (stem ++ ".m4s") ".m3u8" = false).
    rewrite (Hother "." "m4s" "" ".ts" eq_refl ltac:(discriminate)
             : JsString.endsWith (stem ++ ".m4s") ".ts" = false).
    rewrite (Hother "" ".m4s" "" ".mp4" eq_refl ltac:(discriminate)
             : JsString.endsWith (stem ++ ".m4s") ".mp4" = false).
    now rewrite JsStringFacts.endsWith_intro.
  - rewrite (Hother "." "mpd" ".m" "3u8" eq_refl ltac:(discriminate)
             : JsString.endsWith (stem ++ ".mpd") ".m3u8" = false).
    rewrite (Hother "." "mpd" "" ".ts" eq_refl ltac:(discriminate)
             : JsString.endsWith (stem ++ ".mpd") ".ts" = false).
    rewrite (Hother "" ".mpd" "" ".mp4" eq_refl ltac:(discriminate)
             : JsString.endsWith (stem ++ ".mpd") ".mp4" = false).
    rewrite (Hother "" ".mpd" "" ".m4s" eq_refl ltac:(discriminate)
             : JsString.endsWith (stem ++ ".mpd") ".m4s" = false).
    now rewrite JsStringFacts.endsWith_intro.
Qed.

(** X2. With the shipped [CACHE_CONFIG], a name is cacheable exactly when
    it has a known content type: the allow-list of [config.js] and the
    extension table of [getContentType] are the same five extensions. *)
Theorem cacheable_iff_content_type (path : string) :
  isCacheable ConfigJs.CACHE_CONFIG path = true
  <-> exists contentType, getContentType path = Some contentType.
Proof.
  unfold isCacheable, getContentType. simpl.
  destruct (JsString.endsWith path ".m3u8"); simpl; [split; eauto|].
  destruct (JsString.endsWith path ".ts"); simpl; [split; eauto|].
  destruct (JsString.endsWith path ".mp4"); simpl; [split; eauto|].
  destruct (JsString.endsWith path ".m4s"); simpl; [split; eauto|].
  destruct (JsString.endsWith path ".mpd"); simpl; [split; eauto|].
  split; [discriminate | now intros [? ?]].
Qed.

(** ** The content fetcher on objects with a body *)

Section ContentFetcherMore.

Variable finalRequestPath : string.
Variable reqHeaders : gmap string string.
Variable env : Env.
Variable cache : gmap string Response.

Let key := JsString.slice1 finalRequestPath.


(** X3. For an object with a body the response is a 200 or a 206 with
    that body; it is a 206 exactly when the Range header has a non-empty
    value and the object has a range. [ETag], [Content-Type] (for a known
    extension) and [Access-Control-Allow-Origin] replace whatever the
    object's metadata wrote; [Content-Range] is written whenever the
    object has a range. *)
Theorem object_response (object : R2Object) (content : string) :
  FWM_BUCKER env key (r2Options reqHeaders) = Normal (Some object) ->
  obj_body object = Some content ->
  exists response,
    generateResponse finalRequestPath reqHeaders env cache
    = mkRun (Normal response) cache [BucketGet key (r2Options reqHeaders)]
    /\ (status response = 200 \/ status response = 206)
    /\ (status response = 206 <->
        (exists value,
           Headers.get reqHeaders "range" = Some value /\ value <> "")
        /\ obj_range object <> None)
    /\ body response = Some content
    /\ Headers.get (headers response) "ETag" = Some (httpEtag object)
    /\ Headers.get (headers response) "Access-Control-Allow-Origin"
       = Some "*"
    /\ (forall contentType,
          getContentType key = Some contentType ->
          Headers.get (headers response) "Content-Type" = Some contentType)
    /\ Headers.get (headers response) "Content-Range"
       = match obj_range object with
         | Some r =>
             Some ("bytes " ++ JsString.of_number (offset r) ++ "-"
                   ++ JsString.of_number (offset r + range_length r - 1)
                   ++ "/" ++ JsString.of_number (size object))
         | None =>
             Headers.get (writeHttpMetadata object Headers.empty)
                         "Content-Range"
         end.
Proof.
  intros Hget Hbody.
  unfold generateResponse, Js.bind, Js.call. simpl. fold key.
  rewrite Hget. simpl. rewrite Hbody. simpl.
  eexists. split; [reflexivity|]. simpl.
  assert (truthy_value (Headers.get reqHeaders "range") = true
          <-> exists value,
                Headers.get reqHeaders "range" = Some value /\ value <> "")
    as Htruthy.
  { unfold truthy_value. destruct (Headers.get reqHeaders "range") as [v|].
    - rewrite JsStringFacts.truthy_nonempty. split.
      + intros Hne. now exists v.
      + now intros (v' & [= <-] & Hne).
    - split; [discriminate | now intros (v' & Hv & _)]. }
  split.
  { destruct (truthy_value _); [destruct (obj_range object)|]; tauto. }
  split.
  { destruct (truthy_value (Headers.get reqHeaders "range")) eqn:Ht.
    - destruct (obj_range object) as [r|].
      + split; [intros _|reflexivity]. split; [now apply Htruthy|discriminate].
      + split; [discriminate|]. intros [_ Hnone]. congruence.
    - split; [discriminate|]. intros [Hsome _].
      apply Htruthy in Hsome. discriminate. }
  split; [reflexivity|].
  destruct (getContentType key) as [contentType|] eqn:Htype;
    [rewrite (getContentType_truthy _ _ Htype)|];
    destruct (obj_range object) as [r|];
    (split; [now headers_simpl|]); (split; [now headers_simpl|]);
    (split; [first [discriminate | intros ? [= <-]; now headers_simpl]|]);
    now headers_simpl.
Qed.

(** X4. [Content-Range] does not depend on the request: without a Range
    header, an object that comes back with a body and a range is
    answered with status 200 and still carries
    [Content-Range: bytes <offset>-<offset+length-1>/<size>]. *)
Theorem content_range_on_full_response
    (object : R2Object) (content : string) (r : R2Range) :
  Headers.has reqHeaders "range" = false ->
  FWM_BUCKER env key (r2Options reqHeaders) = Normal (Some object) ->
  obj_body object = Some content ->
  obj_range object = Some r ->
  exists response,
    outcome (generateResponse finalRequestPath reqHeaders env cache)
    = Normal response
    /\ status response = 200
    /\ body response = Some content
    /\ Headers.get (headers response) "Content-Range"
       = Some ("bytes " ++ JsString.of_number (offset r) ++ "-"
               ++ JsString.of_number (offset r + range_length r - 1)
               ++ "/" ++ JsString.of_number (size object)).
Proof.
  intros Hno Hget Hbody Hrange.
  apply HeadersFacts.has_false_get in Hno.
  unfold generateResponse, Js.bind, Js.call. simpl. fold key.
  rewrite Hget. simpl. rewrite Hbody, Hrange, Hno. simpl.
  eexists. split; [reflexivity|]. simpl.
  split; [reflexivity|]. split; [reflexivity|]. now headers_simpl.
Qed.

End ContentFetcherMore.

(** X3 at a ranged read of a segment. *)
Lemma object_response_witness :
  FWM_BUCKER Samples.env (JsString.slice1 Samples.segment_path)
    (r2Options Samples.range_100_109) = Normal (Some Samples.segment_part)
  /\ exists response,
       outcome (generateResponse Samples.segment_path Samples.range_100_109
                  Samples.env Samples.empty_cache) = Normal response
       /\ status response = 206
       /\ body response = Some "0123456789"
       /\ Headers.get (headers response) "ETag" = Some "etag-2"
       /\ Headers.get (headers response) "Content-Type"
          = Some "video/iso.segment".
Proof.
  assert (FWM_BUCKER Samples.env (JsString.slice1 Samples.segment_path)
            (r2Options Samples.range_100_109)
          = Normal (Some Samples.segment_part)) as Hget
    by (vm_compute; reflexivity).
  split; [exact Hget|].
  destruct (object_response Samples.segment_path Samples.range_100_109
              Samples.env Samples.empty_cache Samples.segment_part
              "0123456789" Hget eq_refl)
    as (response & Hrun & _ & H206 & Hbody & Hetag & _ & Htype & _).
  exists response. rewrite Hrun. simpl.
  split; [reflexivity|]. split.
  { apply H206. split; [|discriminate].
    exists "bytes=100-109". split; [vm_compute; reflexivity | discriminate]. }
  split; [exact Hbody|]. split; [exact Hetag|].
  apply Htype. vm_compute; reflexivity.
Defined.

(** X4 at a segment read without headers from a bucket that always
    reports a range. *)
Lemma content_range_on_full_response_witness :
  Headers.has Headers.empty "range" = false
  /\ exists response,
       outcome (generateResponse Samples.segment_path Headers.empty
                  Faults.always_ranged_env Samples.empty_cache)
       = Normal response
       /\ status response = 200
       /\ body response = Some "0123456789"
       /\ Headers.get (headers response) "Content-Range"
          = Some "bytes 100-109/5000".
Proof.
  split; [reflexivity|].
  apply (content_range_on_full_response Samples.segment_path Headers.empty
           Faults.always_ranged_env Samples.empty_cache Samples.segment_part
           "0123456789" {| offset := 100; range_length := 10 |});
    reflexivity.
Defined.

(** ** The handler: failures, routing and pass-through *)

Section HandlerMore.

Variable config : Config.
Variable CACHE_CONFIG : CacheConfig.
Variable akamaiWmt_getContentUrl :
  string -> list string -> Config -> Completion (option string).
Variable doveRunnerAes_getContentUrl :
  string -> list string -> string -> Config -> bool ->
  Completion (option string).
Variable wmUtil_removeRevokeToken :
  list string -> Completion (list string * bool).

Local Abbreviation checkWatermarkPath := (checkWatermarkPath config).
Local Abbreviation isCacheable := (isCacheable CACHE_CONFIG).
Local Abbreviation resolveFinalRequestPath :=
  (resolveFinalRequestPath config akamaiWmt_getContentUrl
     doveRunnerAes_getContentUrl wmUtil_removeRevokeToken).
Local Abbreviation serveResolved := (serveResolved CACHE_CONFIG).
Local Abbreviation fetch :=
  (fetch config CACHE_CONFIG akamaiWmt_getContentUrl
     doveRunnerAes_getContentUrl wmUtil_removeRevokeToken).
Local Abbreviation fetch_run :=
  (fetch_run config CACHE_CONFIG akamaiWmt_getContentUrl
     doveRunnerAes_getContentUrl wmUtil_removeRevokeToken).
Local Abbreviation resolve_effects :=
  (resolve_effects config akamaiWmt_getContentUrl
     doveRunnerAes_getContentUrl wmUtil_removeRevokeToken).

Lemma method_ok (request : Request) :
  method request = "GET" \/ method request = "HEAD" ->
  String.eqb (method request) "GET" || String.eqb (method request) "HEAD"
  = true.
Proof. intros [-> | ->]; reflexivity. Qed.

(** Path resolution reads the URL only: neither the method, nor the
    headers, nor the cache. *)
Lemma resolve_reads_url (request1 request2 : Request)
    (cache1 cache2 : gmap string Response) :
  url request1 = url request2 ->
  outcome (resolveFinalRequestPath request1 cache1)
  = outcome (resolveFinalRequestPath request2 cache2)
  /\ events (resolveFinalRequestPath request1 cache1)
     = events (resolveFinalRequestPath request2 cache2).
Proof.
  intros Hurl.
  unfold IndexJs.resolveFinalRequestPath, Js.bind, Js.call, Js.throw, Js.ret.
  rewrite Hurl.
  destruct (nth_error _ 1) as [reqPrefixFolder|]; [|now simpl].
  destruct (JsString.startsWith reqPrefixFolder "wmt:"); [now simpl|].
  destruct (checkWatermarkPath reqPrefixFolder); [|now simpl].
  simpl. destruct (wmUtil_removeRevokeToken _) as [[arr revoked]|message];
    now simpl.
Qed.

(** X5. When token decoding or revoke-token removal throws, the handler
    answers 400 with the error's message as the body, also for HEAD, and
    reads neither the cache nor the bucket. *)
Theorem decoder_failure_is_bad_request (request : Request) (env : Env)
    (cache : gmap string Response) (message : string) :
  method request = "GET" \/ method request = "HEAD" ->
  outcome (resolveFinalRequestPath request cache) = Throw message ->
  exists response,
    fetch request env cache
    = mkRun (Normal response) cache
            (events (resolveFinalRequestPath request cache))
    /\ status response = 400
    /\ body response = Some message
    /\ existsb is_cache_event (events (fetch request env cache)) = false
    /\ existsb is_bucket_event (events (fetch request env cache)) = false.
Proof.
  intros Hmethod Hthrow.
  pose proof (fetch_run request env cache (method_ok _ Hmethod)) as Hrun.
  simpl in Hrun. rewrite Hthrow in Hrun.
  destruct (resolve_effects request cache) as (_ & Hnocache & Hnobucket).
  exists (bad_request message). rewrite Hrun. simpl. now repeat split.
Qed.

(** X6. When decoding yields no path ([undefined]) or the empty path,
    the handler answers 404 with the body ["Not Found"], also for HEAD,
    and reads neither the cache nor the bucket. *)
Theorem unresolved_path_is_not_found (request : Request) (env : Env)
    (cache : gmap string Response) :
  method request = "GET" \/ method request = "HEAD" ->
  outcome (resolveFinalRequestPath request cache) = Normal None
  \/ outcome (resolveFinalRequestPath request cache) = Normal (Some "") ->
  exists response,
    fetch request env cache
    = mkRun (Normal response) cache
            (events (resolveFinalRequestPath request cache))
    /\ status response = 404
    /\ body response = Some "Not Found"
    /\ existsb is_cache_event (events (fetch request env cache)) = false
    /\ existsb is_bucket_event (events (fetch request env cache)) = false.
Proof.
  intros Hmethod Hnone.
  pose proof (fetch_run request env cache (method_ok _ Hmethod)) as Hrun.
  simpl in Hrun.
  destruct (resolve_effects request cache) as (_ & Hnocache & Hnobucket).
  exists not_found.
  destruct Hnone as [Hnone|Hnone]; rewrite Hnone in Hrun; simpl in Hrun;
    rewrite Hrun; simpl; now repeat split.
Qed.


(** *** Serving a resolved path, branch by branch *)

Ltac serve_branches request env path cache :=
  unfold IndexJs.serveResolved, IndexJs.getFromCache, IndexJs.storeInCache,
    Js.bind, Js.ret, Js.cache_match, Js.cache_put;
  destruct (isCacheable path);
  destruct (Headers.has (req_headers request) "range");
  destruct (enabled CACHE_CONFIG);
  simpl;
  try destruct (cache !! getCacheKey request path) as [cached|];
  simpl;
  let Hevents := fresh "Hevents" in
  let Hcache := fresh "Hcache" in
  destruct (generateResponse_effects path (req_headers request) env cache)
    as [Hevents Hcache];
  destruct (generateResponse path (req_headers request) env cache)
    as [originOutcome originCache originEvents];
  simpl in Hevents, Hcache; subst originCache originEvents;
  destruct originOutcome as [response|message]; simpl;
  try destruct (status response =? 200) eqn:Hstatus; simpl;
  destruct (String.eqb (method request) "HEAD"); simpl.

(** The response for a method: HEAD drops the body. *)
Local Abbreviation for_method request response :=
  (if String.eqb (method request) "HEAD"
   then new_Response None (init_of_response response)
   else response).

(** A hit, exactly. *)
Lemma serve_hit_run (request : Request) (env : Env) (path : string)
    (cache : gmap string Response) (cached : Response) :
  isCacheable path = true ->
  Headers.has (req_headers request) "range" = false ->
  enabled CACHE_CONFIG = true ->
  cache !! getCacheKey request path = Some cached ->
  serveResolved request env path cache
  = mkRun (Normal (for_method request
                     {| status := status cached;
                        headers := Headers.set (headers cached)
                                     "X-Cache-Status" "HIT";
                        body := body cached |}))
          cache [CacheMatch (getCacheKey request path)].
Proof.
  intros Hext Hno Hon Hhit.
  unfold IndexJs.serveResolved, IndexJs.getFromCache, Js.bind, Js.ret,
    Js.cache_match.
  rewrite Hext, Hno, Hon. simpl. rewrite Hhit. simpl.
  unfold set_header. rewrite ResponseFacts.new_Response_stream. simpl.
  now destruct (String.eqb (method request) "HEAD").
Qed.

(** Without a hit, a failed bucket read fails the step and a response
    other than a 200 is passed on; neither changes the cache. *)
Lemma serve_without_hit (request : Request) (env : Env) (path : string)
    (cache : gmap string Response) :
  isCacheable path && negb (Headers.has (req_headers request) "range")
  = false
  \/ enabled CACHE_CONFIG = false
  \/ cache !! getCacheKey request path = None ->
  match outcome (generateResponse path (req_headers request) env cache) with
  | Normal originResponse =>
      status originResponse <> 200 ->
      outcome (serveResolved request env path cache)
      = Normal (for_method request originResponse)
      /\ cache_after (serveResolved request env path cache) = cache
  | Throw message =>
      outcome (serveResolved request env path cache) = Throw message
      /\ cache_after (serveResolved request env path cache) = cache
  end.
Proof.
  serve_branches request env path cache; intros Hnohit;
    try (intros Hnot200; try (apply Z.eqb_eq in Hstatus; contradiction));
    try (split; reflexivity);
    destruct Hnohit as [H|[H|H]]; discriminate H.
Qed.

(** A first, cacheable 200 is stored under the request's key. *)
Lemma serve_stores (request : Request) (env : Env) (path : string)
    (cache : gmap string Response) (originResponse : Response) :
  isCacheable path = true ->
  Headers.has (req_headers request) "range" = false ->
  enabled CACHE_CONFIG = true ->
  cache !! getCacheKey request path = None ->
  outcome (generateResponse path (req_headers request) env cache)
  = Normal originResponse ->
  status originResponse = 200 ->
  cache_after (serveResolved request env path cache)
  = <[getCacheKey request path :=
        {| status := 200;
           headers :=
             Headers.set (headers originResponse) "Cache-Control"
               ("public, max-age=" ++ JsString.of_number (ttl CACHE_CONFIG));
           body := body originResponse |}]> cache.
Proof.
  intros Hext Hno Hon Hmiss Horigin H200. revert Horigin.
  unfold IndexJs.serveResolved, IndexJs.getFromCache, IndexJs.storeInCache,
    Js.bind, Js.ret, Js.cache_match, Js.cache_put.
  rewrite Hext, Hno, Hon. simpl. rewrite Hmiss. simpl.
  destruct (generateResponse_effects path (req_headers request) env cache)
    as [_ Hcache].
  destruct (generateResponse path (req_headers request) env cache)
    as [originOutcome originCache originEvents].
  simpl in *. subst originCache. intros ->. simpl.
  apply Z.eqb_eq in H200 as H200b. rewrite H200b. simpl.
  rewrite ?H200.
  destruct (String.eqb (method request) "HEAD"); simpl; f_equal;
    apply ResponseFacts.new_Response_stream.
Qed.



(** The serving step reads the bucket, looks the cache up and stores to
    it at most once each. *)
Lemma serve_counts (request : Request) (env : Env) (path : string)
    (cache : gmap string Response) :
  (length (List.filter is_bucket_event
             (events (serveResolved request env path cache))) <= 1)%nat
  /\ (length (List.filter is_cache_match
                (events (serveResolved request env path cache))) <= 1)%nat
  /\ (length (List.filter is_cache_put
                (events (serveResolved request env path cache))) <= 1)%nat.
Proof.
  serve_branches request env path cache; simpl; lia.
Qed.

Lemma serve_bypass_outcome (request : Request) (env : Env) (path : string)
    (cache : gmap string Response) :
  isCacheable path && negb (Headers.has (req_headers request) "range")
  = false ->
  outcome (serveResolved request env path cache)
  = match outcome (generateResponse path (req_headers request) env cache) with
    | Normal originResponse => Normal (for_method request originResponse)
    | Throw message => Throw message
    end.
Proof.
  intros Hno. unfold IndexJs.serveResolved, Js.bind, Js.ret.
  rewrite Hno. simpl.
  destruct (generateResponse path (req_headers request) env cache)
    as [[response|message] originCache originEvents]; simpl; [|reflexivity].
  now destruct (String.eqb (method request) "HEAD").
Qed.

Lemma serve_disabled (request : Request) (env : Env) (path : string)
    (cache : gmap string Response) :
  enabled CACHE_CONFIG = false ->
  existsb is_cache_event (events (serveResolved request env path cache))
  = false
  /\ cache_after (serveResolved request env path cache) = cache.
Proof.
  serve_branches request env path cache; intros Hoff;
    try discriminate Hoff; split; reflexivity.
Qed.


Lemma filter_none (p q : Event -> bool) (l : list Event) :
  existsb p l = false ->
  (forall e, q e = true -> p e = true) ->
  List.filter q l = [].
Proof.
  intros Hnone Hsub. induction l as [|e l IH]; [reflexivity|].
  simpl in *. apply orb_false_iff in Hnone as [He Hl].
  destruct (q e) eqn:Hq; [|now apply IH].
  rewrite (Hsub e Hq) in He. discriminate.
Qed.

(** *** The whole handler *)


(** X9. A request with a Range header, or for a path whose extension is
    not allow-listed, is passed straight through: the response is the
    content fetcher's own (without the body for HEAD, as a 400 when the
    bucket read fails), the bucket is read once, and the cache is neither
    read nor written. *)
Theorem uncached_requests_pass_through (request : Request) (env : Env)
    (cache : gmap string Response) (path : string) :
  method request = "GET" \/ method request = "HEAD" ->
  outcome (resolveFinalRequestPath request cache) = Normal (Some path) ->
  path <> "" ->
  isCacheable path = false
  \/ Headers.has (req_headers request) "range" = true ->
  fetch request env cache
  = mkRun
      (match
         outcome (generateResponse path (req_headers request) env cache)
       with
       | Normal originResponse => Normal (for_method request originResponse)
       | Throw message => Normal (bad_request message)
       end)
      cache
      (events (resolveFinalRequestPath request cache)
       ++ [BucketGet (JsString.slice1 path)
             (r2Options (req_headers request))])%list.
Proof.
  intros Hmethod Hpath Hne Hbypass.
  assert (isCacheable path
          && negb (Headers.has (req_headers request) "range") = false)
    as Hno.
  { destruct Hbypass as [-> | ->]; [reflexivity | apply andb_false_r]. }
  pose proof (fetch_run request env cache (method_ok _ Hmethod)) as Hrun.
  simpl in Hrun. apply JsStringFacts.truthy_nonempty in Hne.
  rewrite Hpath, Hne in Hrun. rewrite Hrun.
  destruct (serve_bypass CACHE_CONFIG request env path cache Hno)
    as [Hevents Hcache].
  rewrite Hevents, Hcache, (serve_bypass_outcome request env path cache Hno).
  now destruct (outcome (generateResponse path (req_headers request) env
                           cache)).
Qed.

(** X10. When the bucket read fails and the response is not served from
    the cache, the handler answers 400 with the error's message as the
    body and leaves the cache as it was. *)
Theorem bucket_failure_is_bad_request (request : Request) (env : Env)
    (cache : gmap string Response) (path message : string) :
  method request = "GET" \/ method request = "HEAD" ->
  outcome (resolveFinalRequestPath request cache) = Normal (Some path) ->
  path <> "" ->
  FWM_BUCKER env (JsString.slice1 path) (r2Options (req_headers request))
  = Throw message ->
  isCacheable path && negb (Headers.has (req_headers request) "range")
  = false
  \/ enabled CACHE_CONFIG = false
  \/ cache !! getCacheKey request path = None ->
  exists response,
    outcome (fetch request env cache) = Normal response
    /\ status response = 400
    /\ body response = Some message
    /\ cache_after (fetch request env cache) = cache.
Proof.
  intros Hmethod Hpath Hne Hthrow Hnohit.
  pose proof (fetch_run request env cache (method_ok _ Hmethod)) as Hrun.
  simpl in Hrun. apply JsStringFacts.truthy_nonempty in Hne.
  rewrite Hpath, Hne in Hrun. rewrite Hrun. simpl.
  pose proof (serve_without_hit request env path cache Hnohit) as Hserve.
  rewrite (generateResponse_throws path (req_headers request) env cache
             message Hthrow) in Hserve.
  destruct Hserve as [Hout Hcache]. rewrite Hout, Hcache.
  exists (bad_request message). now repeat split.
Qed.

(** X11. When the bucket has no object under the key and the response is
    not served from the cache, the handler answers 404 with the body
    ["Object Not Found"] (no body for HEAD), adds no [X-Cache-Status],
    and does not cache the miss. *)
Theorem missing_object_is_not_found (request : Request) (env : Env)
    (cache : gmap string Response) (path : string) :
  method request = "GET" \/ method request = "HEAD" ->
  outcome (resolveFinalRequestPath request cache) = Normal (Some path) ->
  path <> "" ->
  FWM_BUCKER env (JsString.slice1 path) (r2Options (req_headers request))
  = Normal None ->
  isCacheable path && negb (Headers.has (req_headers request) "range")
  = false
  \/ enabled CACHE_CONFIG = false
  \/ cache !! getCacheKey request path = None ->
  exists response,
    outcome (fetch request env cache) = Normal response
    /\ status response = 404
    /\ body response
       = (if String.eqb (method request) "HEAD" then None
          else Some "Object Not Found")
    /\ Headers.get (headers response) "X-Cache-Status" = None
    /\ cache_after (fetch request env cache) = cache.
Proof.
  intros Hmethod Hpath Hne Hnull Hnohit.
  pose proof (fetch_run request env cache (method_ok _ Hmethod)) as Hrun.
  simpl in Hrun. apply JsStringFacts.truthy_nonempty in Hne.
  rewrite Hpath, Hne in Hrun. rewrite Hrun. simpl.
  pose proof (serve_without_hit request env path cache Hnohit) as Hserve.
  rewrite (generateResponse_not_found path (req_headers request) env cache
             Hnull) in Hserve.
  destruct (Hserve ltac:(discriminate)) as [Hout Hcache].
  rewrite Hout, Hcache. eexists. split; [reflexivity|].
  destruct (String.eqb (method request) "HEAD"); now repeat split.
Qed.


(** X13. Store, then hit. After a cacheable request that missed and got
    a 200 from the bucket, the same request on the resulting cache is
    served from it with any bucket: [X-Cache-Status: HIT], status 200,
    the body of the first bucket response, and the overwritten
    [Cache-Control: public, max-age=<ttl>]; the bucket is not read and
    the cache stays as it is. *)
Theorem second_request_is_hit (request : Request) (env : Env)
    (cache : gmap string Response) (path : string)
    (originResponse : Response) :
  method request = "GET" \/ method request = "HEAD" ->
  outcome (resolveFinalRequestPath request cache) = Normal (Some path) ->
  path <> "" ->
  isCacheable path = true ->
  Headers.has (req_headers request) "range" = false ->
  enabled CACHE_CONFIG = true ->
  cache !! getCacheKey request path = None ->
  outcome (generateResponse path (req_headers request) env cache)
  = Normal originResponse ->
  status originResponse = 200 ->
  forall env',
    exists response,
      outcome (fetch request env' (cache_after (fetch request env cache)))
      = Normal response
      /\ Headers.get (headers response) "X-Cache-Status" = Some "HIT"
      /\ status response = 200
      /\ body response
         = (if String.eqb (method request) "HEAD" then None
            else body originResponse)
      /\ Headers.get (headers response) "Cache-Control"
         = Some ("public, max-age=" ++ JsString.of_number (ttl CACHE_CONFIG))
      /\ existsb is_bucket_event
           (events (fetch request env' (cache_after (fetch request env cache))))
         = false
      /\ cache_after (fetch request env' (cache_after (fetch request env cache)))
         = cache_after (fetch request env cache).
Proof.
  intros Hmethod Hpath Hne Hext Hno Hon Hmiss Horigin H200 env'.
  pose proof (method_ok _ Hmethod) as Hok.
  apply JsStringFacts.truthy_nonempty in Hne.
  pose proof (fetch_run request env cache Hok) as Hfirst.
  simpl in Hfirst. rewrite Hpath, Hne in Hfirst.
  assert (cache_after (fetch request env cache)
          = <[getCacheKey request path :=
                {| status := 200;
                   headers :=
                     Headers.set (headers originResponse) "Cache-Control"
                       ("public, max-age="
                        ++ JsString.of_number (ttl CACHE_CONFIG));
                   body := body originResponse |}]> cache) as Hwarm.
  { rewrite Hfirst. simpl.
    now apply serve_stores. }
  rewrite Hwarm.
  match goal with
  | |- context [fetch request env' ?c] => set (warm := c)
  end.
  destruct (resolve_reads_url request request warm cache eq_refl)
    as [Ho He].
  destruct (resolve_effects request warm) as (_ & _ & Hnobucket).
  pose proof (fetch_run request env' warm Hok) as Hsecond.
  simpl in Hsecond. rewrite Ho, Hpath, Hne in Hsecond.
  rewrite (serve_hit_run request env' path warm _ Hext Hno Hon
             (lookup_insert_eq cache _ _)) in Hsecond.
  simpl in Hsecond. rewrite Hsecond. simpl.
  eexists. split; [reflexivity|].
  rewrite existsb_app, Hnobucket. simpl.
  destruct (String.eqb (method request) "HEAD"); simpl;
    (split; [now headers_simpl|]); (split; [reflexivity|]);
    (split; [reflexivity|]); (split; [now headers_simpl|]);
    split; reflexivity.
Qed.

(** X14. A hit does not look at the request's headers. Two requests with
    the same method and URL and no Range header, whatever their other
    headers ([If-None-Match], [If-Match], ...) and whatever the bucket,
    get the very same run when the cache holds an entry for the resolved
    path: a cached 200 is returned even when the bucket would have
    answered 304. *)
Theorem hit_ignores_request_headers (request1 request2 : Request)
    (env1 env2 : Env) (cache : gmap string Response) (path : string)
    (cached : Response) :
  method request1 = "GET" \/ method request1 = "HEAD" ->
  method request2 = method request1 ->
  url request2 = url request1 ->
  Headers.has (req_headers request1) "range" = false ->
  Headers.has (req_headers request2) "range" = false ->
  outcome (resolveFinalRequestPath request1 cache) = Normal (Some path) ->
  path <> "" ->
  isCacheable path = true ->
  enabled CACHE_CONFIG = true ->
  cache !! getCacheKey request1 path = Some cached ->
  fetch request2 env2 cache = fetch request1 env1 cache.
Proof.
  intros Hmethod Hsame Hurl Hno1 Hno2 Hpath Hne Hext Hon Hhit.
  assert (method request2 = "GET" \/ method request2 = "HEAD") as Hmethod2
    by now rewrite Hsame.
  assert (getCacheKey request2 path = getCacheKey request1 path) as Hkey
    by (unfold getCacheKey; now rewrite Hurl).
  apply JsStringFacts.truthy_nonempty in Hne.
  destruct (resolve_reads_url request2 request1 cache cache Hurl) as [Ho He].
  pose proof (fetch_run request1 env1 cache (method_ok _ Hmethod)) as H1.
  pose proof (fetch_run request2 env2 cache (method_ok _ Hmethod2)) as H2.
  simpl in H1, H2. rewrite Ho, He in H2.
  rewrite Hpath, Hne in H1, H2.
  rewrite (serve_hit_run request1 env1 path cache cached Hext Hno1 Hon Hhit)
    in H1.
  rewrite <- Hkey in Hhit.
  rewrite (serve_hit_run request2 env2 path cache cached Hext Hno2 Hon Hhit)
    in H2.
  rewrite H1, H2, Hkey, Hsame. reflexivity.
Qed.

(** X15. With [CACHE_CONFIG.enabled] off the handler neither looks the
    cache up nor stores to it, for any request. *)
Theorem disabled_cache_is_never_used (request : Request) (env : Env)
    (cache : gmap string Response) :
  enabled CACHE_CONFIG = false ->
  existsb is_cache_event (events (fetch request env cache)) = false
  /\ cache_after (fetch request env cache) = cache.
Proof.
  intros Hoff.
  destruct (fetch_shape config CACHE_CONFIG akamaiWmt_getContentUrl
              doveRunnerAes_getContentUrl wmUtil_removeRevokeToken
              request env cache)
    as [(Hsame & Hnone & _) | (path & _ & _ & _ & Hev & Hafter & _)];
    [now split|].
  destruct (resolve_effects request cache) as (_ & Hnocache & _).
  destruct (serve_disabled request env path cache Hoff) as [Hserve Hkeep].
  rewrite Hev, Hafter, existsb_app, Hnocache, Hserve. now split.
Qed.


(** X17. One request costs at most one bucket read, one cache lookup and
    one cache store. *)
Theorem at_most_one_read_lookup_store (request : Request) (env : Env)
    (cache : gmap string Response) :
  (length (List.filter is_bucket_event (events (fetch request env cache)))
   <= 1)%nat
  /\ (length (List.filter is_cache_match (events (fetch request env cache)))
      <= 1)%nat
  /\ (length (List.filter is_cache_put (events (fetch request env cache)))
      <= 1)%nat.
Proof.
  assert (forall e, is_cache_match e = true -> is_cache_event e = true)
    as Hmatch by (now intros []).
  assert (forall e, is_cache_put e = true -> is_cache_event e = true)
    as Hput by (now intros []).
  destruct (fetch_shape config CACHE_CONFIG akamaiWmt_getContentUrl
              doveRunnerAes_getContentUrl wmUtil_removeRevokeToken
              request env cache)
    as [(_ & Hnocache & Hnobucket) | (path & _ & _ & _ & Hev & _)].
  - rewrite (filter_none is_bucket_event is_bucket_event _ Hnobucket)
      by auto.
    rewrite (filter_none is_cache_event is_cache_match _ Hnocache Hmatch).
    rewrite (filter_none is_cache_event is_cache_put _ Hnocache Hput).
    simpl. lia.
  - destruct (resolve_effects request cache) as (_ & Hnocache & Hnobucket).
    destruct (serve_counts request env path cache) as (Hb & Hm & Hp).
    rewrite Hev, !List.filter_app, !length_app.
    rewrite (filter_none is_bucket_event is_bucket_event _ Hnobucket)
      by auto.
    rewrite (filter_none is_cache_event is_cache_match _ Hnocache Hmatch).
    rewrite (filter_none is_cache_event is_cache_put _ Hnocache Hput).
    simpl. lia.
Qed.

End HandlerMore.

(** ** The further properties at concrete requests *)

(** X5 at a WMT request whose token the decoder rejects. *)
Lemma decoder_failure_is_bad_request_witness :
  outcome (resolveFinalRequestPath ConfigJs.config
             Faults.rejecting_akamaiWmt Samples.doveRunnerAes_getContentUrl
             Samples.wmUtil_removeRevokeToken Samples.get_wmt_a
             Samples.warm_cache) = Throw "invalid watermark token"
  /\ exists response,
       outcome (fetch ConfigJs.config ConfigJs.CACHE_CONFIG
                  Faults.rejecting_akamaiWmt
                  Samples.doveRunnerAes_getContentUrl
                  Samples.wmUtil_removeRevokeToken Samples.get_wmt_a
                  Samples.env Samples.warm_cache) = Normal response
       /\ status response = 400
       /\ body response = Some "invalid watermark token".
Proof.
  split; [reflexivity|].
  destruct (decoder_failure_is_bad_request ConfigJs.config
              ConfigJs.CACHE_CONFIG Faults.rejecting_akamaiWmt
              Samples.doveRunnerAes_getContentUrl
              Samples.wmUtil_removeRevokeToken Samples.get_wmt_a Samples.env
              Samples.warm_cache "invalid watermark token"
              (or_introl eq_refl) eq_refl)
    as (response & Hrun & Hstatus & Hbody & _).
  exists response. rewrite Hrun. now repeat split.
Defined.

(** X6 at a WMT request that the decoder resolves to the empty path. *)
Lemma unresolved_path_is_not_found_witness :
  outcome (resolveFinalRequestPath ConfigJs.config Faults.empty_akamaiWmt
             Samples.doveRunnerAes_getContentUrl
             Samples.wmUtil_removeRevokeToken Samples.get_wmt_a
             Samples.warm_cache) = Normal (Some "")
  /\ exists response,
       outcome (fetch ConfigJs.config ConfigJs.CACHE_CONFIG
                  Faults.empty_akamaiWmt Samples.doveRunnerAes_getContentUrl
                  Samples.wmUtil_removeRevokeToken Samples.get_wmt_a
                  Samples.env Samples.warm_cache) = Normal response
       /\ status response = 404
       /\ body response = Some "Not Found".
Proof.
  split; [reflexivity|].
  destruct (unresolved_path_is_not_found ConfigJs.config
              ConfigJs.CACHE_CONFIG Faults.empty_akamaiWmt
              Samples.doveRunnerAes_getContentUrl
              Samples.wmUtil_removeRevokeToken Samples.get_wmt_a Samples.env
              Samples.warm_cache (or_introl eq_refl) (or_intror eq_refl))
    as (response & Hrun & Hstatus & Hbody & _).
  exists response. rewrite Hrun. now repeat split.
Defined.


(** X9 at a playlist request with a Range header. *)
Lemma uncached_requests_pass_through_witness :
  Headers.has (req_headers Samples.get_playlist_range) "range" = true
  /\ response_status
       (Samples.handle Samples.get_playlist_range Samples.env
          Samples.warm_cache)
     = response_status
         (generateResponse Samples.playlist_path
            (req_headers Samples.get_playlist_range) Samples.env
            Samples.warm_cache)
  /\ cache_after
       (Samples.handle Samples.get_playlist_range Samples.env
          Samples.warm_cache) = Samples.warm_cache.
Proof.
  assert (Headers.has (req_headers Samples.get_playlist_range) "range"
          = true) as Hrange by (vm_compute; reflexivity).
  split; [exact Hrange|].
  unfold Samples.handle.
  rewrite (uncached_requests_pass_through ConfigJs.config
             ConfigJs.CACHE_CONFIG Samples.akamaiWmt_getContentUrl
             Samples.doveRunnerAes_getContentUrl
             Samples.wmUtil_removeRevokeToken Samples.get_playlist_range
             Samples.env Samples.warm_cache Samples.playlist_path
             (or_introl eq_refl) ltac:(vm_compute; reflexivity)
             ltac:(discriminate) (or_intror Hrange)).
  split; [|reflexivity].
  unfold response_status. simpl outcome.
  now destruct (outcome (generateResponse Samples.playlist_path
                           (req_headers Samples.get_playlist_range)
                           Samples.env Samples.warm_cache)).
Defined.

(** X10 at a playlist request against a bucket whose reads fail. *)
Lemma bucket_failure_is_bad_request_witness :
  FWM_BUCKER Faults.failing_env (JsString.slice1 Samples.playlist_path)
    (r2Options (req_headers Samples.get_playlist))
  = Throw "bucket unavailable"
  /\ exists response,
       outcome (Samples.handle Samples.get_playlist Faults.failing_env
                  Samples.empty_cache) = Normal response
       /\ status response = 400
       /\ body response = Some "bucket unavailable"
       /\ cache_after (Samples.handle Samples.get_playlist
                         Faults.failing_env Samples.empty_cache)
          = Samples.empty_cache.
Proof.
  split; [reflexivity|].
  apply (bucket_failure_is_bad_request ConfigJs.config ConfigJs.CACHE_CONFIG
           Samples.akamaiWmt_getContentUrl
           Samples.doveRunnerAes_getContentUrl
           Samples.wmUtil_removeRevokeToken Samples.get_playlist
           Faults.failing_env Samples.empty_cache Samples.playlist_path
           "bucket unavailable").
  - left. reflexivity.
  - vm_compute; reflexivity.
  - discriminate.
  - reflexivity.
  - right. right. vm_compute; reflexivity.
Defined.

(** X11 at a request for a playlist the bucket does not have. *)
Lemma missing_object_is_not_found_witness :
  FWM_BUCKER Samples.env (JsString.slice1 Samples.missing_path)
    (r2Options (req_headers Samples.get_missing)) = Normal None
  /\ exists response,
       outcome (Samples.handle Samples.get_missing Samples.env
                  Samples.warm_cache) = Normal response
       /\ status response = 404
       /\ body response = Some "Object Not Found"
       /\ Headers.get (headers response) "X-Cache-Status" = None
       /\ cache_after (Samples.handle Samples.get_missing Samples.env
                         Samples.warm_cache) = Samples.warm_cache.
Proof.
  split; [vm_compute; reflexivity|].
  apply (missing_object_is_not_found ConfigJs.config ConfigJs.CACHE_CONFIG
           Samples.akamaiWmt_getContentUrl
           Samples.doveRunnerAes_getContentUrl
           Samples.wmUtil_removeRevokeToken Samples.get_missing
           Samples.env Samples.warm_cache Samples.missing_path).
  - left. reflexivity.
  - vm_compute; reflexivity.
  - discriminate.
  - vm_compute; reflexivity.
  - right. right. vm_compute; reflexivity.
Defined.

(** X13 at a first playlist request, repeated against a bucket that has
    gone away. *)
Lemma second_request_is_hit_witness :
  Samples.empty_cache !! getCacheKey Samples.get_playlist
                           Samples.playlist_path = None
  /\ exists response,
       outcome (Samples.handle Samples.get_playlist Faults.failing_env
                  (cache_after (Samples.handle Samples.get_playlist
                                  Samples.env Samples.empty_cache)))
       = Normal response
       /\ Headers.get (headers response) "X-Cache-Status" = Some "HIT"
       /\ status response = 200
       /\ body response = Some "#EXTM3U"
       /\ Headers.get (headers response) "Cache-Control"
          = Some "public, max-age=3600".
Proof.
  split; [vm_compute; reflexivity|].
  destruct (second_request_is_hit ConfigJs.config ConfigJs.CACHE_CONFIG
              Samples.akamaiWmt_getContentUrl
              Samples.doveRunnerAes_getContentUrl
              Samples.wmUtil_removeRevokeToken Samples.get_playlist
              Samples.env Samples.empty_cache Samples.playlist_path
              {| status := 200;
                 headers :=
                   Headers.set
                     (Headers.set
                        (Headers.set
                           (Headers.set Headers.empty "cache-control"
                              "no-store")
                           "etag" "etag-1")
                        "content-type" "application/vnd.apple.mpegurl")
                     "access-control-allow-origin" "*";
                 body := Some "#EXTM3U" |}
              (or_introl eq_refl) ltac:(vm_compute; reflexivity)
              ltac:(discriminate) ltac:(vm_compute; reflexivity)
              ltac:(vm_compute; reflexivity) eq_refl
              ltac:(vm_compute; reflexivity) ltac:(vm_compute; reflexivity)
              eq_refl Faults.failing_env)
    as (response & Hout & Hhit & Hstatus & Hbody & Hcontrol & _).
  exists response. now repeat split.
Defined.

(** X14 at a playlist request with a matching [If-None-Match] on a warm
    cache: the bucket would answer 304, the handler returns the cached
    200. *)
Lemma hit_ignores_request_headers_witness :
  response_status
    (generateResponse Samples.playlist_path
       (req_headers Faults.get_playlist_conditional) Samples.env
       Samples.warm_cache) = Some 304
  /\ Samples.handle Faults.get_playlist_conditional Samples.env
       Samples.warm_cache
     = Samples.handle Samples.get_playlist Samples.env Samples.warm_cache
  /\ response_status
       (Samples.handle Samples.get_playlist Samples.env Samples.warm_cache)
     = Some 200.
Proof.
  split; [vm_compute; reflexivity|]. split; [|vm_compute; reflexivity].
  apply (hit_ignores_request_headers ConfigJs.config ConfigJs.CACHE_CONFIG
           Samples.akamaiWmt_getContentUrl
           Samples.doveRunnerAes_getContentUrl
           Samples.wmUtil_removeRevokeToken Samples.get_playlist
           Faults.get_playlist_conditional Samples.env Samples.env
           Samples.warm_cache Samples.playlist_path Samples.stored_playlist).
  - left. reflexivity.
  - reflexivity.
  - reflexivity.
  - vm_compute; reflexivity.
  - vm_compute; reflexivity.
  - vm_compute; reflexivity.
  - discriminate.
  - vm_compute; reflexivity.
  - reflexivity.
  - vm_compute; reflexivity.
Defined.

(** X15 at a playlist request with the cache switched off. *)
Lemma disabled_cache_is_never_used_witness :
  enabled Faults.disabled_CACHE_CONFIG = false
  /\ existsb is_cache_event
       (events (fetch ConfigJs.config Faults.disabled_CACHE_CONFIG
                  Samples.akamaiWmt_getContentUrl
                  Samples.doveRunnerAes_getContentUrl
                  Samples.wmUtil_removeRevokeToken Samples.get_playlist
                  Samples.env Samples.warm_cache)) = false
  /\ cache_after (fetch ConfigJs.config Faults.disabled_CACHE_CONFIG
                    Samples.akamaiWmt_getContentUrl
                    Samples.doveRunnerAes_getContentUrl
                    Samples.wmUtil_removeRevokeToken Samples.get_playlist
                    Samples.env Samples.warm_cache) = Samples.warm_cache.
Proof.
  split; [reflexivity|].
  apply (disabled_cache_is_never_used ConfigJs.config
           Faults.disabled_CACHE_CONFIG Samples.akamaiWmt_getContentUrl
           Samples.doveRunnerAes_getContentUrl
           Samples.wmUtil_removeRevokeToken Samples.get_playlist Samples.env
           Samples.warm_cache eq_refl).
Defined.

